(** * pdf2xls client: a shallow embedding of the React front end

    The repository's sources are the browser client of a PDF to CSV/Excel
    converter: the axios service layer ([services/api.js]), the i18next
    set-up ([i18n.js]) with its two translation bundles, and the React
    components [FileUploader], [ConversionControls], [ProgressTracker] and
    [App].  Each component is embedded as a state record, a pure [render]
    function into a small virtual DOM, and one state transformer per event
    handler.  The server is a function from requests to settled promises,
    and an asynchronous handler is the state it leaves once the request it
    awaits has settled. *)

From stdpp Require Import base option list strings pretty gmap.
From Stdlib Require Import ZArith Ascii.

Local Open Scope list_scope.
Local Open Scope string_scope.
Set Warnings "-register-all".

(** ** JavaScript values, as far as the client inspects them *)

Module JS.

(** Dynamic values.  Objects are association lists in source order; an
    [Error] instance is kept apart from plain objects. [VError name msg]
    is [new <name>(msg)], with [msg] the argument before the constructor
    turns it into a string: for a string argument that is the message
    itself. *)
Inductive value : Type :=
| VUndefined
| VNull
| VBool (b : bool)
| VNum (n : Z)
| VStr (s : string)
| VObj (fields : list (string * value))
| VError (name : string) (message : value).

(** ToBoolean: what [if (v)], [v || w] and [v && w] test. *)
Definition truthy (v : value) : bool :=
  match v with
  | VUndefined | VNull => false
  | VBool b => b
  | VNum n => negb (n =? 0)%Z
  | VStr s => negb (String.eqb s "")
  | VObj _ | VError _ _ => true
  end.

(** [a || b] *)
Definition or_else (a b : value) : value := if truthy a then a else b.

(** An object literal with a repeated key keeps the last binding. *)
Fixpoint field (k : string) (fs : list (string * value)) : option value :=
  match fs with
  | [] => None
  | (k', v) :: rest =>
      match field k rest with
      | Some w => Some w
      | None => if String.eqb k k' then Some v else None
      end
  end.

(** Evaluation either completes with a value or throws one. *)
Inductive completion (A : Type) : Type :=
| Normal (a : A)
| Throw (exn : value).
Arguments Normal {A} a.
Arguments Throw {A} exn.

Definition bind {A B} (c : completion A) (k : A → completion B) : completion B :=
  match c with
  | Normal a => k a
  | Throw e => Throw e
  end.

Definition type_error (what : string) : value := VError "TypeError" (VStr what).

(** The TypeError of reading property [k] of [undefined] or [null]. *)
Definition cannot_read (nullish k : string) : value :=
  type_error ("Cannot read properties of " ++ nullish ++ " (reading '" ++ k ++ "')").

(** Property read [v.k]: a TypeError on [undefined] and [null]; on
    primitives the keys read by the client are not defined. *)
Definition get (v : value) (k : string) : completion value :=
  match v with
  | VUndefined => Throw (cannot_read "undefined" k)
  | VNull => Throw (cannot_read "null" k)
  | VObj fs => Normal (default VUndefined (field k fs))
  | VError _ msg => Normal (if String.eqb k "message" then msg else VUndefined)
  | VBool _ | VNum _ | VStr _ => Normal VUndefined
  end.

(** A settled promise. *)
Inductive settled (A : Type) : Type :=
| Resolves (a : A)
| Rejects (reason : value).
Arguments Resolves {A} a.
Arguments Rejects {A} reason.

End JS.

Import JS.

#[global] Instance completion_bind : MBind completion := λ A B k c, JS.bind c k.
#[global] Instance completion_ret : MRet completion := @JS.Normal.

(** ** services/api.js *)

Module Api.

Definition default_base_url : string := "http://localhost:8003".

(** [process.env.REACT_APP_API_URL || 'http://localhost:8003'] *)
Definition API_BASE_URL (env : option string) : string :=
  match env with
  | Some url => if String.eqb url "" then default_base_url else url
  | None => default_base_url
  end.

(** The error-handling helper.  [console.error] calls only log; the
    argument expressions they evaluate are kept where they can throw. *)
Definition handleApiError (error : value) : completion unit :=
  response ← get error "response";
  if truthy response then
    data ← get response "data";
    _ ← get response "status";
    detail ← get data "detail";
    let errorMessage := or_else detail (VStr "An error occurred") in
    Throw (VError "Error" errorMessage)
  else
    request ← get error "request";
    if truthy request then
      Throw (VError "Error" (VStr "No response from server. Please check your connection."))
    else
      Throw error.

Inductive method := GET | POST.

(** What a request carries: [FormData] entries and the content type
    passed in the per-request config. *)
Record request := {
  verb : method;
  url : string;
  form : list (string * string);
  multipart : bool
}.

(** A fulfilled axios response, of which the wrappers read [data] only. *)
Record response (D : Type) := { data : D; http_status : Z }.
Arguments data {D} r.
Arguments http_status {D} r.

Section Wrappers.
(** The server behind the axios instance: every request settles, with a
    response or with the error object axios rejects with. *)
Context {D : Type}.
Variable api : request → settled (response D).

(** [try { const response = await api...; return response.data; }
     catch (error) { handleApiError(error); }]
    When the helper returns normally the async function runs off its
    end and resolves with [undefined], here [None]. *)
Definition send (req : request) : settled (option D) :=
  match api req with
  | Resolves r => Resolves (Some (data r))
  | Rejects error =>
      match handleApiError error with
      | Normal _ => Resolves None
      | Throw e => Rejects e
      end
  end.

Definition uploadFile (file : string) : settled (option D) :=
  send {| verb := POST; url := "/upload"; form := [("file", file)]; multipart := true |}.

Definition startConversion (sessionId outputFormat : string) : settled (option D) :=
  send {| verb := POST; url := "/start/" ++ sessionId;
          form := [("output_format", outputFormat)]; multipart := true |}.

Definition pauseConversion (sessionId : string) : settled (option D) :=
  send {| verb := POST; url := "/pause/" ++ sessionId; form := []; multipart := false |}.

Definition resumeConversion (sessionId : string) : settled (option D) :=
  send {| verb := POST; url := "/resume/" ++ sessionId; form := []; multipart := false |}.

Definition cancelConversion (sessionId : string) : settled (option D) :=
  send {| verb := POST; url := "/cancel/" ++ sessionId; form := []; multipart := false |}.

Definition getSessionProgress (sessionId : string) : settled (option D) :=
  send {| verb := GET; url := "/progress/" ++ sessionId; form := []; multipart := false |}.

Definition getPreviewData (sessionId : string) : settled (option D) :=
  send {| verb := GET; url := "/preview/" ++ sessionId; form := []; multipart := false |}.

Definition resetPreviewData (sessionId : string) : settled (option D) :=
  send {| verb := POST; url := "/reset-preview/" ++ sessionId; form := []; multipart := false |}.
End Wrappers.

(** [getDownloadUrl] declares one parameter.  A JavaScript call binds the
    declared parameters to the leading arguments ([undefined] when there
    are too few) and drops the rest. *)
Definition getDownloadUrl_body (env : option string) (sessionId : string) : string :=
  API_BASE_URL env ++ "/download/" ++ sessionId.

Definition getDownloadUrl (env : option string) (args : list string) : string :=
  getDownloadUrl_body env (default "undefined" (head args)).

End Api.

(** ** translations/en.js and translations/he.js

    The two bundles as the object literals are written, repeated keys
    included. *)

Module Translations.

Definition translationsEN : value :=
  VObj [
    ("app", VObj [
      ("title", VStr "PDF to Excel/CSV Converter");
      ("description", VStr "Upload a PDF file and convert tables to Excel or CSV format")]);
    ("upload", VObj [
      ("title", VStr "Upload PDF");
      ("dropzone", VStr "Drag and drop a PDF file here, or click to browse");
      ("processing", VStr "Processing...");
      ("uploadButton", VStr "Upload");
      ("invalidFile", VStr "Please upload a valid PDF file");
      ("maxSizeExceeded", VStr "File size exceeds the maximum limit of 10MB");
      ("uploadSuccess", VStr "File uploaded successfully!");
      ("uploadError", VStr "Error uploading file");
      ("limits", VStr "Maximum file size: 10MB, File type: PDF");
      ("button", VStr "Continue")]);
    ("progress", VObj [
      ("title", VStr "Conversion Progress");
      ("pending", VStr "Ready to convert");
      ("processing", VStr "Converting...");
      ("paused", VStr "Paused");
      ("completed", VStr "Conversion completed!");
      ("error", VStr "Error during conversion");
      ("analysis", VStr "Analyzing PDF structure...");
      ("page", VStr "Page");
      ("of", VStr "of");
      ("percent", VStr "{percent}% Complete");
      ("completed", VStr "Complete")]);
    ("conversion", VObj [
      ("cancel", VStr "Cancel");
      ("pause", VStr "Pause");
      ("resume", VStr "Resume");
      ("start", VStr "Start Conversion");
      ("format", VStr "Format");
      ("csv", VStr "CSV");
      ("excel", VStr "Excel");
      ("title", VStr "Table Extraction");
      ("status", VObj [
        ("completed", VStr "Successfully converted!");
        ("processing", VStr "Processing your file...");
        ("error", VStr "Conversion failed");
        ("pending", VStr "Pending");
        ("paused", VStr "Paused");
        ("completed", VStr "Completed");
        ("error", VStr "Error");
        ("processing", VStr "Processing");
        ("paused", VStr "Paused");
        ("completed", VStr "Completed")]);
      ("download", VStr "Download your file");
      ("percent", VStr "{percent}")]);
    ("controls", VObj [
      ("start", VStr "Start Conversion");
      ("pause", VStr "Pause");
      ("resume", VStr "Resume");
      ("cancel", VStr "Cancel");
      ("download", VStr "Download");
      ("downloadCSV", VStr "Download CSV");
      ("downloadExcel", VStr "Download Excel");
      ("chooseAnotherFile", VStr "Choose Another File")]);
    ("preview", VObj [
      ("title", VStr "Preview");
      ("showPreview", VStr "Show Preview");
      ("hidePreview", VStr "Hide Preview");
      ("noData", VStr "No preview data available");
      ("returnToFirstPage", VStr "Return to First Page")]);
    ("download", VObj [
      ("title", VStr "Your Conversion is Ready!");
      ("description", VStr "Choose the format you prefer to download your converted file.")]);
    ("features", VObj [
      ("title", VStr "Key Features");
      ("intelligentExtraction", VStr "Intelligent Table Extraction");
      ("intelligentExtractionDesc", VStr "Our advanced algorithms identify and extract tables from your PDF files with high accuracy.");
      ("rtlSupport", VStr "RTL Language Support");
      ("rtlSupportDesc", VStr "Full support for right-to-left languages such as Hebrew, ensuring proper text display and organization.");
      ("numberHandling", VStr "Smart Number Formatting");
      ("numberHandlingDesc", VStr "Automatic detection of numeric values, ensuring they appear as numbers in your Excel or CSV file.")]);
    ("error", VObj [
      ("generic", VStr "An error occurred");
      ("retry", VStr "Retry")]);
    ("language", VObj [
      ("en", VStr "English");
      ("he", VStr "Hebrew");
      ("switch", VStr "Change language")]);
    ("footer", VObj [
      ("help", VStr "Help");
      ("about", VStr "About")])].

Definition translationsHE : value :=
  VObj [
    ("app", VObj [
      ("title", VStr "ממיר PDF לאקסל/CSV");
      ("description", VStr "העלה קובץ PDF והמר טבלאות לפורמט אקסל או CSV")]);
    ("upload", VObj [
      ("title", VStr "העלאת PDF");
      ("dropzone", VStr "גרור ושחרר קובץ PDF כאן, או לחץ לעיון");
      ("processing", VStr "מעבד...");
      ("uploadButton", VStr "העלאה");
      ("invalidFile", VStr "אנא העלה קובץ PDF תקין");
      ("maxSizeExceeded", VStr "גודל הקובץ עובר את המגבלה של 10MB");
      ("uploadSuccess", VStr "הקובץ הועלה בהצלחה!");
      ("uploadError", VStr "שגיאה בהעלאת הקובץ");
      ("limits", VStr "גודל מקסימלי: 10MB, סוג קובץ: PDF");
      ("button", VStr "המשך")]);
    ("progress", VObj [
      ("title", VStr "התקדמות ההמרה");
      ("pending", VStr "מוכן להמרה");
      ("processing", VStr "ממיר...");
      ("paused", VStr "מושהה");
      ("completed", VStr "ההמרה הושלמה!");
      ("error", VStr "שגיאה במהלך ההמרה");
      ("analysis", VStr "מנתח את מבנה ה-PDF...");
      ("page", VStr "עמוד");
      ("of", VStr "מתוך");
      ("percent", VStr "הושלם {percent}%");
      ("completed", VStr "הושלם")]);
    ("conversion", VObj [
      ("cancel", VStr "בטל");
      ("pause", VStr "השהה");
      ("resume", VStr "המשך");
      ("start", VStr "התחל המרה");
      ("format", VStr "פורמט");
      ("csv", VStr "CSV");
      ("excel", VStr "אקסל");
      ("title", VStr "חילוץ טבלאות");
      ("status", VObj [
        ("completed", VStr "ההמרה הושלמה בהצלחה!");
        ("processing", VStr "מעבד את הקובץ שלך...");
        ("error", VStr "ההמרה נכשלה");
        ("pending", VStr "ממתין");
        ("paused", VStr "מושהה");
        ("completed", VStr "הושלמה");
        ("error", VStr "שגיאה");
        ("processing", VStr "מעבד");
        ("paused", VStr "מושהה");
        ("completed", VStr "הושלמה")]);
      ("download", VStr "הורד את הקובץ שלך")]);
    ("controls", VObj [
      ("start", VStr "התחל המרה");
      ("pause", VStr "השהה");
      ("resume", VStr "המשך");
      ("cancel", VStr "בטל");
      ("download", VStr "הורדה");
      ("downloadCSV", VStr "הורד CSV");
      ("downloadExcel", VStr "הורד אקסל");
      ("chooseAnotherFile", VStr "בחר קובץ אחר")]);
    ("preview", VObj [
      ("title", VStr "תצוגה מקדימה");
      ("showPreview", VStr "הצג תצוגה מקדימה");
      ("hidePreview", VStr "הסתר תצוגה מקדימה");
      ("noData", VStr "אין נתונים זמינים לתצוגה מקדימה");
      ("returnToFirstPage", VStr "חזור לעמוד הראשון")]);
    ("download", VObj [
      ("title", VStr "ההמרה שלך מוכנה!");
      ("description", VStr "בחר את הפורמט המועדף עליך להורדת הקובץ המומר.")]);
    ("features", VObj [
      ("title", VStr "תכונות עיקריות");
      ("intelligentExtraction", VStr "חילוץ טבלאות חכם");
      ("intelligentExtractionDesc", VStr "האלגוריתמים המתקדמים שלנו מזהים ומחלצים טבלאות מקבצי PDF שלך בדיוק גבוה.");
      ("rtlSupport", VStr "תמיכה בשפות RTL");
      ("rtlSupportDesc", VStr "תמיכה מלאה בשפות מימין לשמאל כמו עברית, המבטיחה תצוגה וארגון נכון של טקסט.");
      ("numberHandling", VStr "עיצוב מספרים חכם");
      ("numberHandlingDesc", VStr "זיהוי אוטומטי של ערכים מספריים, המבטיח שיופיעו כמספרים בקובץ האקסל או ה-CSV שלך.")]);
    ("error", VObj [
      ("generic", VStr "אירעה שגיאה");
      ("retry", VStr "נסה שוב")]);
    ("language", VObj [
      ("en", VStr "אנגלית");
      ("he", VStr "עברית");
      ("switch", VStr "החלף שפה")]);
    ("footer", VObj [
      ("help", VStr "עזרה");
      ("about", VStr "אודות")])].

End Translations.

(** ** i18n.js *)

Module I18n.

(** The options passed to [init] that decide which bundle answers. *)
Definition lng : string := "en".
Definition fallbackLng : string := "en".

(** [resources]: language code to its [translation] namespace. *)
Definition resources (code : string) : option value :=
  if String.eqb code "en" then Some Translations.translationsEN
  else if String.eqb code "he" then Some Translations.translationsHE
  else None.

(** Keys are paths separated by dots (i18next's default [keySeparator]). *)
Fixpoint split_key (acc : string) (key : string) : list string :=
  match key with
  | EmptyString => [acc]
  | String c rest =>
      if Ascii.eqb c "."%char then acc :: split_key "" rest
      else split_key (acc ++ String c "") rest
  end.

Fixpoint deep (path : list string) (v : value) : value :=
  match path with
  | [] => v
  | k :: rest =>
      match v with
      | VObj fs => deep rest (default VUndefined (field k fs))
      | _ => VUndefined
      end
  end.

Definition resolve (code key : string) : value :=
  match resources code with
  | Some bundle => deep (split_key "" key) bundle
  | None => VUndefined
  end.

(** The translation function [t] of [useTranslation], for the language
    [language] of the i18next instance, with i18next's defaults: the
    bundle of the language is asked first, then the one of [fallbackLng];
    a key that neither holds is returned as it is, and a key that names
    an object rather than a string yields i18next's notice.  Language
    codes are matched exactly (the application selects ['en'] and ['he']
    only), and keys are read without a namespace prefix, as every key the
    components pass is written. *)
Definition t (language key : string) : string :=
  let answer v :=
    match v with
    | VStr s => Some s
    | VObj _ =>
        Some ("key '" ++ key ++ " (" ++ language ++ ")' returned an object instead of string.")
    | _ => None
    end in
  match answer (resolve language key) with
  | Some s => s
  | None => default key (answer (resolve fallbackLng key))
  end.

Arguments t : simpl never.

(** [document.documentElement], the two attributes the module writes. *)
Record document := { dir : string; lang : string }.

Definition updateDocumentDirection (lng : string) (doc : document) : document :=
  let doc := {| dir := if String.eqb lng "he" then "rtl" else "ltr"; lang := lang doc |} in
  {| dir := dir doc; lang := lng |}.

(** The i18next instance and the page.  [language] is [i18n.language],
    undefined until initialization has settled; [subscribed] tells that the
    module's ['languageChanged'] listener is registered. *)
Record world := {
  language : option string;
  init_pending : bool;
  subscribed : bool;
  page : document
}.

(** i18next emits ['languageChanged'] with the language it has switched to. *)
Definition emit_languageChanged (l : string) (w : world) : world :=
  if subscribed w then
    {| language := language w; init_pending := init_pending w;
       subscribed := true; page := updateDocumentDirection l (page w) |}
  else w.

Definition set_language (l : string) (w : world) : world :=
  {| language := Some l; init_pending := false;
     subscribed := subscribed w; page := page w |}.

(** Evaluation of the module: [init] is called, the direction is set from
    [i18n.language || 'en'], then the listener is registered.  [init]
    settles either before it returns ([sync]) or later. *)
Definition boot (sync : bool) (doc : document) : world :=
  let w0 := {| language := None; init_pending := true; subscribed := false; page := doc |} in
  let w1 := if sync then emit_languageChanged lng (set_language lng w0) else w0 in
  let seen := match language w1 with
              | Some l => if String.eqb l "" then "en" else l
              | None => "en"
              end in
  {| language := language w1; init_pending := init_pending w1;
     subscribed := true; page := updateDocumentDirection seen (page w1) |}.

Inductive event :=
| InitSettled
| ChangeLanguage (l : string).

(** [ChangeLanguage l]: [i18n.changeLanguage] settles on language [l],
    stores it and notifies the listeners. *)
Definition step (w : world) (ev : event) : world :=
  match ev with
  | InitSettled =>
      if init_pending w then emit_languageChanged lng (set_language lng w) else w
  | ChangeLanguage l => emit_languageChanged l (set_language l w)
  end.

Definition run (w : world) (evs : list event) : world := foldl step w evs.

(** The language in force: [i18n.language], or the configured [lng] while
    initialization has not settled. *)
Definition active_language (w : world) : string := default lng (language w).

(** The page agrees with the language in force. *)
Definition direction_invariant (w : world) : Prop :=
  (dir (page w) = "rtl" ↔ active_language w = "he")
  ∧ lang (page w) = active_language w.

(** The invariant carried along a run: the listener stays registered. *)
Definition settled_page (w : world) : Prop :=
  subscribed w = true ∧ direction_invariant w.

End I18n.

(** ** What the server sends back

    The request handlers are not part of the client; their replies are
    read as the documented JSON objects: [session_id] and [status] from the
    control endpoints, and the full status object from [/progress]. *)
Module Wire.

Record reply := {
  session_id : string;
  status : string;
  progress : Z;
  error : value
}.

End Wire.

Import Wire.

(** ** A virtual DOM for what the components render *)

Module VDom.

Inductive icon :=
| HourglassEmpty | PlayArrow | Pause | CheckCircle | ErrorIcon | Analytics
| Replay | Cancel | UploadFile | CloudDownload | Description | ArrowBack
| TableChart | LanguageRounded.

(** The event handlers a rendered control can be wired to. *)
Inductive handler :=
| handleUpload
| handleStart
| handlePause
| handleResume
| handleCancel
| handleFormatChange
| handleDownload
| handleReturnToFileSelection
| handleLanguageMenuOpen
| handleLanguageMenuClose
| changeLanguage (language : string)
| dropzoneInput.

#[global] Instance handler_eq_dec : EqDecision handler.
Proof. solve_decision. Defined.

Inductive node :=
| Text (s : string)
| Icon (i : icon)
| Button (label : string) (onClick : handler) (disabled : bool)
| IconButton (i : icon) (onClick : handler)
| MenuItem (label : string) (onClick : handler)
| Input (onChange : handler) (disabled : bool)
| RadioGroup (name selected : string) (choices : list (string * string)) (onChange : handler)
| Alert (severity : string) (content : value)
| Chip (i : icon) (label color : string)
| LinearProgress (variant : string) (percent : Z) (color : string)
| CircularProgress
| Element (tag : string) (children : list node).

(** [{cond && <X />}] *)
Definition when (cond : bool) (n : node) : list node := if cond then [n] else [].

(** Every node of a tree, the root first. *)
Fixpoint flatten (n : node) : list node :=
  n :: match n with
       | Element _ children => flat_map flatten children
       | _ => []
       end.

Definition handler_of (n : node) : option handler :=
  match n with
  | Button _ h _ | IconButton _ h | MenuItem _ h | Input h _ | RadioGroup _ _ _ h => Some h
  | _ => None
  end.

(** The handlers reachable from a rendered tree. *)
Definition handlers (n : node) : list handler := omap handler_of (flatten n).

Definition wired (h : handler) (n : node) : bool := bool_decide (h ∈ handlers n).

Definition is_radio_group (n : node) : bool :=
  match n with RadioGroup _ _ _ _ => true | _ => false end.

Definition is_error_alert (n : node) : bool :=
  match n with Alert severity _ => String.eqb severity "error" | _ => false end.

Definition shows (p : node → bool) (n : node) : bool := existsb p (flatten n).

End VDom.

Import VDom.

(** ** components/ProgressTracker.js *)

Module ProgressTracker.

Record props := {
  p_status : string;
  p_progress : Z;
  p_error : value
}.

(** The arm of [switch (status)] that is taken. *)
Inductive arm :=
| case_pending | case_processing | case_paused | case_completed
| case_error | case_analysis | case_default.

Definition switch (status : string) : arm :=
  if String.eqb status "pending" then case_pending
  else if String.eqb status "processing" then case_processing
  else if String.eqb status "paused" then case_paused
  else if String.eqb status "completed" then case_completed
  else if String.eqb status "error" then case_error
  else if String.eqb status "analysis" then case_analysis
  else case_default.

Record config := { icon : VDom.icon; color : string; label : string }.

Definition getStatusConfig (language status : string) : config :=
  let t := I18n.t language in
  match switch status with
  | case_pending =>
      {| icon := HourglassEmpty; color := "default"; label := t "conversion.status.pending" |}
  | case_processing =>
      {| icon := PlayArrow; color := "primary"; label := t "conversion.status.processing" |}
  | case_paused =>
      {| icon := Pause; color := "secondary"; label := t "conversion.status.paused" |}
  | case_completed =>
      {| icon := CheckCircle; color := "success"; label := t "conversion.status.completed" |}
  | case_error =>
      {| icon := ErrorIcon; color := "error"; label := t "conversion.status.error" |}
  | case_analysis =>
      {| icon := Analytics; color := "info"; label := t "progress.analysis" |}
  | case_default =>
      {| icon := HourglassEmpty; color := "default"; label := status |}
  end.

(** [progress] is carried as a whole percentage, on which [Math.round] is
    the identity. *)
Definition render (language : string) (p : props) : node :=
  let t := I18n.t language in
  let roundedProgress := p_progress p in
  let statusConfig := getStatusConfig language (p_status p) in
  Element "Paper"
    ([ Element "Typography" [Text (t "progress.title")];
       Element "Box"
         [ Chip (icon statusConfig) (label statusConfig) (color statusConfig);
           Element "Typography"
             [Text (if String.eqb language "he"
                    then t "progress.completed" ++ " " ++ pretty roundedProgress ++ "%"
                    else pretty roundedProgress ++ "% " ++ t "progress.completed")] ];
       LinearProgress
         (if String.eqb (p_status p) "processing" || String.eqb (p_status p) "analysis"
          then "indeterminate" else "determinate")
         roundedProgress
         (if negb (String.eqb (color statusConfig) "default")
          then color statusConfig else "primary") ]
     ++ when (truthy (p_error p)) (Alert "error" (p_error p)))%list.

End ProgressTracker.

(** ** components/ConversionControls.js *)

Module ConversionControls.

Record state := {
  outputFormat : string;
  error : value;
  loading : bool
}.

(** [useState('xlsx')], [useState(null)], [useState(false)] *)
Definition initial : state :=
  {| outputFormat := "xlsx"; error := VNull; loading := false |}.

(** Calls made on the parent through the props. *)
Inductive callback :=
| onStatusChange (newStatus : string)
| onFormatChange (format : string).

Definition isProcessing (status : string) : bool := String.eqb status "processing".
Definition isPaused (status : string) : bool := String.eqb status "paused".
Definition isCompleted (status : string) : bool := String.eqb status "completed".
Definition isError (status : string) : bool := String.eqb status "error".
Definition isPending (status : string) : bool := String.eqb status "pending".

(** [handleFormatChange]: [event.target.value] is the chosen radio value. *)
Definition on_formatChange (newFormat : string) (st : state) : state * list callback :=
  ({| outputFormat := newFormat; error := error st; loading := loading st |},
   [onFormatChange newFormat]).

(** What the four control handlers share after their request is sent:
    [setLoading(true); setError(null);
     try { onStatusChange(response.status) }
     catch (error) { setError(error.message || t('error.conversion')) }
     finally { setLoading(false) }]
    with [outcome] the settled request. *)
Definition settle (language : string) (outcome : settled (option reply)) (st : state)
  : state * list callback :=
  let caught (exn : value) : state * list callback :=
    match get exn "message" with
    | Normal message =>
        ({| outputFormat := outputFormat st;
            error := or_else message (VStr (I18n.t language "error.conversion"));
            loading := false |}, [])
    | Throw _ =>
        ({| outputFormat := outputFormat st; error := VNull; loading := false |}, [])
    end in
  match outcome with
  | Resolves (Some response) =>
      ({| outputFormat := outputFormat st; error := VNull; loading := false |},
       [onStatusChange (Wire.status response)])
  | Resolves None => caught (cannot_read "undefined" "status")
  | Rejects exn => caught exn
  end.

Section Handlers.
Variable api : Api.request → settled (Api.response reply).
Variable language : string.
Variable sessionId : string.

Definition on_start (st : state) : state * list callback :=
  settle language (Api.startConversion api sessionId (outputFormat st)) st.

Definition on_pause (st : state) : state * list callback :=
  settle language (Api.pauseConversion api sessionId) st.

Definition on_resume (st : state) : state * list callback :=
  settle language (Api.resumeConversion api sessionId) st.

Definition on_cancel (st : state) : state * list callback :=
  settle language (Api.cancelConversion api sessionId) st.

(** The component's reaction to an event on one of its controls;
    [choice] is the value of the radio button for a format change. *)
Definition handle (h : handler) (choice : string) (st : state) : state * list callback :=
  match h with
  | handleStart => on_start st
  | handlePause => on_pause st
  | handleResume => on_resume st
  | handleCancel => on_cancel st
  | handleFormatChange => on_formatChange choice st
  | _ => (st, [])
  end.
End Handlers.

(** [ButtonGroup disabled={loading}] hands its flag down to its buttons. *)
Definition render (language status : string) (st : state) : node :=
  let t := I18n.t language in
  Element "Paper"
    ([ Element "Typography" [Text (t "conversion.title")] ]
     ++ when (isPending status)
          (Element "Box"
             [ Element "Typography" [Text (t "conversion.format")];
               Element "FormControl"
                 [ RadioGroup "output-format" (outputFormat st)
                     [("csv", t "conversion.csv"); ("xlsx", t "conversion.excel")]
                     handleFormatChange ] ])
     ++ [ Element "Box"
            [ Element "ButtonGroup"
                (when (isPending status)
                   (Button (t "conversion.start") handleStart (loading st))
                 ++ when (isProcessing status)
                      (Button (t "conversion.pause") handlePause (loading st))
                 ++ when (isPaused status)
                      (Button (t "conversion.resume") handleResume (loading st))
                 ++ when (isProcessing status || isPaused status)
                      (Button (t "conversion.cancel") handleCancel (loading st)))%list ] ]
     ++ when (truthy (error st)) (Alert "error" (error st)))%list.

End ConversionControls.

(** ** components/FileUploader.js *)

Module FileUploader.

Record file := { name : string; size : Z }.

(** react-dropzone's rejection records. *)
Record file_error := { code : string; message : string }.
Record rejection := { rejected : file; errors : list file_error }.

Record state := {
  uploading : bool;
  uploadError : value;
  uploadSuccess : bool
}.

Definition initial : state :=
  {| uploading := false; uploadError := VNull; uploadSuccess := false |}.

Definition setUploadError (v : value) (st : state) : state :=
  {| uploading := uploading st; uploadError := v; uploadSuccess := uploadSuccess st |}.

(** [fileRejections[0]?.errors[0]] and [error?.code]: [undefined] when
    there is no first rejection or no first error. *)
Definition onDropRejected (language : string) (fileRejections : list rejection) (st : state)
  : state :=
  let t := I18n.t language in
  let error := head fileRejections ≫= (λ r, head (errors r)) in
  let code := code <$> error in
  if bool_decide (code = Some "file-too-large") then
    setUploadError (VStr (t "error.fileSize")) st
  else if bool_decide (code = Some "file-invalid-type") then
    setUploadError (VStr (t "error.invalidFile")) st
  else
    setUploadError (VStr (t "error.generic")) st.

(** [handleUpload] for the selected [file] (nothing happens without one).
    The parent's [onUploadSuccess] reads [response.status]: with an
    undefined response that read throws inside the [try], so the [catch]
    branch runs. *)
Definition on_upload (language : string) (api : Api.request → settled (Api.response reply))
    (selected : option file) (st : state) : state * option reply :=
  match selected with
  | None => (st, None)
  | Some f =>
      let caught (exn : value) : state * option reply :=
        match get exn "message" with
        | Normal message =>
            ({| uploading := false;
                uploadError := or_else message (VStr (I18n.t language "error.upload"));
                uploadSuccess := false |}, None)
        | Throw _ =>
            ({| uploading := false; uploadError := VNull;
                uploadSuccess := uploadSuccess st |}, None)
        end in
      match Api.uploadFile api (name f) with
      | Resolves (Some response) =>
          ({| uploading := false; uploadError := VNull; uploadSuccess := true |},
           Some response)
      | Resolves None => caught (cannot_read "undefined" "status")
      | Rejects exn => caught exn
      end
  end.

(** [acceptedFiles] is what the dropzone hook currently holds.  Of the
    selected file the name is shown; its size in megabytes, printed after
    the name, is left out. *)
Definition render (language : string) (acceptedFiles : list file) (st : state) : node :=
  let t := I18n.t language in
  let file := head acceptedFiles in
  Element "Paper"
    ([ Element "Typography" [Text (t "upload.title")];
       Element "Box"
         [ Input dropzoneInput (uploading st);
           if uploading st
           then Element "Box" [CircularProgress; Element "Typography" [Text (t "uploading" ++ "...")]]
           else Element "Box" [Icon UploadFile; Element "Typography" [Text (t "upload.dropzone")]] ];
       Element "Typography" [Text (t "upload.limits")] ]
     ++ match file with
        | Some f =>
            when (negb (uploadSuccess st) && negb (uploading st))
              (Element "Box"
                 [ Element "Box" [Element "Typography" [Text (name f)]];
                   Button (t "upload.button") handleUpload (uploading st) ])
        | None => []
        end
     ++ when (truthy (uploadError st)) (Alert "error" (uploadError st))
     ++ when (uploadSuccess st) (Alert "success" (VStr (t "upload.success"))))%list.

End FileUploader.

(** ** App.js *)

Module App.

(** The component's [useState] cells; [languageMenu] is whether an anchor
    element is held, and [interval] whether the timer set by the polling
    effect is live. *)
Record state := {
  session : option reply;
  status : string;
  progress : Z;
  languageMenu : bool;
  polling : bool;
  error : value;
  selectedFormat : string;
  interval : bool
}.

Definition initial : state :=
  {| session := None; status := "pending"; progress := 0; languageMenu := false;
     polling := false; error := VNull; selectedFormat := "xlsx"; interval := false |}.

(** The polling effect, run when a render commits: the clean-up of the
    previous run clears its interval, and a new one is set when
    [polling && session]. *)
Definition commit (st : state) : state :=
  {| session := session st; status := status st; progress := progress st;
     languageMenu := languageMenu st; polling := polling st; error := error st;
     selectedFormat := selectedFormat st;
     interval := polling st && bool_decide (is_Some (session st)) |}.

Definition handleSessionCreated (sessionData : reply) (st : state) : state :=
  commit
    {| session := Some sessionData; status := Wire.status sessionData; progress := 0;
       languageMenu := languageMenu st; polling := true; error := error st;
       selectedFormat := selectedFormat st; interval := interval st |}.

Definition handleStatusChange (newStatus : string) (st : state) : state :=
  commit
    {| session := session st; status := newStatus; progress := progress st;
       languageMenu := languageMenu st;
       polling := if String.eqb newStatus "completed" || String.eqb newStatus "error"
                  then false else true;
       error := error st; selectedFormat := selectedFormat st; interval := interval st |}.

Definition handleReturnToFileSelection (st : state) : state :=
  commit
    {| session := None; status := "pending"; progress := 0;
       languageMenu := languageMenu st; polling := false; error := VNull;
       selectedFormat := selectedFormat st; interval := interval st |}.

Definition handleFormatChange (format : string) (st : state) : state :=
  commit
    {| session := session st; status := status st; progress := progress st;
       languageMenu := languageMenu st; polling := polling st; error := error st;
       selectedFormat := format; interval := interval st |}.

(** [handleDownload]: the URL handed to [window.open], if any. *)
Definition handleDownload (env : option string) (st : state) : option string :=
  match session st with
  | None => None
  | Some s => Some (Api.getDownloadUrl env [session_id s; selectedFormat st])
  end.

(** One run of the interval callback, [outcome] being the settled
    [getSessionProgress] request.  A rejected request, and a reply that is
    [undefined], end in the [catch] branch, which only logs. *)
Definition tick (outcome : settled (option reply)) (st : state) : state :=
  match outcome with
  | Resolves (Some response) =>
      let stop :=
        String.eqb (Wire.status response) "completed"
        || String.eqb (Wire.status response) "error" in
      commit
        {| session := session st; status := Wire.status response;
           progress := Wire.progress response; languageMenu := languageMenu st;
           polling := if stop then false else polling st;
           error := if stop && truthy (Wire.error response)
                    then Wire.error response else error st;
           selectedFormat := selectedFormat st; interval := interval st |}
  | Resolves None | Rejects _ => st
  end.

(** A second of time passing: the callback runs only while the interval
    is live. *)
Definition poll (api : Api.request → settled (Api.response reply)) (st : state) : state :=
  match session st with
  | Some s => if interval st then tick (Api.getSessionProgress api (session_id s)) st else st
  | None => st
  end.

(** The state of the child components that are mounted. *)
Record children := {
  uploader : FileUploader.state;
  acceptedFiles : list FileUploader.file;
  controls : ConversionControls.state
}.

Definition render (language : string) (kids : children) (st : state) : node :=
  let t := I18n.t language in
  Element "ThemeProvider"
    [ Element "CssBaseline" [];
      Element "Box"
        [ Element "AppBar"
            [ Element "Toolbar"
                [ Element "Typography" [Icon TableChart; Text (t "app.title")];
                  Element "Tooltip" [IconButton LanguageRounded handleLanguageMenuOpen];
                  Element "Menu"
                    (if languageMenu st
                     then [ MenuItem (t "language.he") (changeLanguage "he");
                            MenuItem (t "language.en") (changeLanguage "en") ]
                     else []) ] ];
          Element "Container"
            [ Element "Paper"
                [ Element "Box"
                    [ Element "Typography" [Text (t "app.title")];
                      Element "Typography" [Text (t "app.description")] ] ];
              Element "Paper"
                (match session st with
                 | None => [FileUploader.render language (acceptedFiles kids) (uploader kids)]
                 | Some s =>
                     [ ProgressTracker.render language
                         {| ProgressTracker.p_status := status st;
                            ProgressTracker.p_progress := progress st;
                            ProgressTracker.p_error := error st |};
                       Element "Box"
                         [ConversionControls.render language (status st) (controls kids)] ]
                     ++ when (String.eqb (status st) "completed")
                          (Element "Fade"
                             [ Element "Box"
                                 [ Element "Divider" [];
                                   Element "Typography" [Text (t "download.title")];
                                   Element "Typography" [Text (t "download.description")];
                                   Element "Box"
                                     [ Button
                                         (if String.eqb (selectedFormat st) "csv"
                                          then t "controls.downloadCSV"
                                          else t "controls.downloadExcel")
                                         VDom.handleDownload false ];
                                   Element "Box"
                                     [ Button (t "controls.chooseAnotherFile")
                                         VDom.handleReturnToFileSelection false ] ] ])
                 end)%list ] ] ].

End App.

(** ** The operations of the service layer, taken together *)

Module Service.

Inductive operation :=
| op_uploadFile (file : string)
| op_startConversion (sessionId outputFormat : string)
| op_pauseConversion (sessionId : string)
| op_resumeConversion (sessionId : string)
| op_cancelConversion (sessionId : string)
| op_getSessionProgress (sessionId : string)
| op_getPreviewData (sessionId : string)
| op_resetPreviewData (sessionId : string).

(** The request an operation puts on the wire. *)
Definition request_of (op : operation) : Api.request :=
  match op with
  | op_uploadFile file =>
      {| Api.verb := Api.POST; Api.url := "/upload";
         Api.form := [("file", file)]; Api.multipart := true |}
  | op_startConversion sessionId outputFormat =>
      {| Api.verb := Api.POST; Api.url := "/start/" ++ sessionId;
         Api.form := [("output_format", outputFormat)]; Api.multipart := true |}
  | op_pauseConversion sessionId =>
      {| Api.verb := Api.POST; Api.url := "/pause/" ++ sessionId;
         Api.form := []; Api.multipart := false |}
  | op_resumeConversion sessionId =>
      {| Api.verb := Api.POST; Api.url := "/resume/" ++ sessionId;
         Api.form := []; Api.multipart := false |}
  | op_cancelConversion sessionId =>
      {| Api.verb := Api.POST; Api.url := "/cancel/" ++ sessionId;
         Api.form := []; Api.multipart := false |}
  | op_getSessionProgress sessionId =>
      {| Api.verb := Api.GET; Api.url := "/progress/" ++ sessionId;
         Api.form := []; Api.multipart := false |}
  | op_getPreviewData sessionId =>
      {| Api.verb := Api.GET; Api.url := "/preview/" ++ sessionId;
         Api.form := []; Api.multipart := false |}
  | op_resetPreviewData sessionId =>
      {| Api.verb := Api.POST; Api.url := "/reset-preview/" ++ sessionId;
         Api.form := []; Api.multipart := false |}
  end.

Definition call {D} (api : Api.request → settled (Api.response D)) (op : operation)
  : settled (option D) :=
  match op with
  | op_uploadFile file => Api.uploadFile api file
  | op_startConversion sessionId outputFormat => Api.startConversion api sessionId outputFormat
  | op_pauseConversion sessionId => Api.pauseConversion api sessionId
  | op_resumeConversion sessionId => Api.resumeConversion api sessionId
  | op_cancelConversion sessionId => Api.cancelConversion api sessionId
  | op_getSessionProgress sessionId => Api.getSessionProgress api sessionId
  | op_getPreviewData sessionId => Api.getPreviewData api sessionId
  | op_resetPreviewData sessionId => Api.resetPreviewData api sessionId
  end.

Definition no_response_message : string :=
  "No response from server. Please check your connection.".

(** [undefined] and [null], of which no property can be read. *)
Definition nullish (v : value) : bool :=
  match v with
  | VUndefined | VNull => true
  | _ => false
  end.

(** The error objects [handleApiError] reads without a TypeError: the
    error itself is an object and, when it holds a response, the body of
    that response is not [undefined] or [null]. *)
Definition readable (error : value) : bool :=
  match get error "response" with
  | Throw _ => false
  | Normal response =>
      if truthy response then
        match get response "data" with
        | Normal data => negb (nullish data)
        | Throw _ => false
        end
      else true
  end.

(** What the three branches of [handleApiError] throw for [error]: the
    [Error] made from the detail of the reply, or from the default message
    when the reply has no detail; the [Error] with the no-response
    message; the error itself. *)
Inductive thrown (error : value) : value → Prop :=
| thrown_detail response data detail :
    get error "response" = Normal response → truthy response = true →
    get response "data" = Normal data →
    get data "detail" = Normal detail → truthy detail = true →
    thrown error (VError "Error" detail)
| thrown_default response data detail :
    get error "response" = Normal response → truthy response = true →
    get response "data" = Normal data →
    get data "detail" = Normal detail → truthy detail = false →
    thrown error (VError "Error" (VStr "An error occurred"))
| thrown_no_response response request :
    get error "response" = Normal response → truthy response = false →
    get error "request" = Normal request → truthy request = true →
    thrown error (VError "Error" (VStr no_response_message))
| thrown_original response request :
    get error "response" = Normal response → truthy response = false →
    get error "request" = Normal request → truthy request = false →
    thrown error error.

End Service.

(** ** The session controller behind the endpoints *)

Module SessionController.

(** Modelled from the spec: the statuses of a session (section 3). *)
Inductive status :=
| pending | analyzing | processing | paused | completed | error | cancelled.

#[global] Instance status_eq_dec : EqDecision status.
Proof. solve_decision. Defined.

(** Modelled from the spec: the output formats (section 3). *)
Inductive output_format := csv | spreadsheet.

(** Modelled from the spec: the control signals of section 5. *)
Inductive signal := sig_pause | sig_resume | sig_cancel.

(** Modelled from the spec: the two failures of a control operation
    (section 7). *)
Inductive failure := NotFound | InvalidState.

(** Modelled from the spec: the session record of section 3, with the
    per-session control slot of section 5. *)
Record Session := {
  id : string;
  state : status;
  progress : Z;
  current_page : Z;
  total_page_count : Z;
  format : option output_format;
  output_ref : option string;
  error_detail : option string;
  control_slot : option signal
}.

(** Modelled from the spec: the request handlers and the conversion engine
    are not among the sources.  The status a control signal leads to, for
    the statuses that permit it (section 4.5): pause from [processing],
    resume from [paused], cancel from [processing], [paused] and
    [pending]. *)
Definition permits (sig : signal) (s : status) : option status :=
  match sig, s with
  | sig_pause, processing => Some paused
  | sig_resume, paused => Some processing
  | sig_cancel, (processing | paused | pending) => Some cancelled
  | _, _ => None
  end.

(** Modelled from the spec: [pause], [resume] and [cancel] of section 6 on
    the registry that maps session ids to sessions (section 5).  An unknown
    id fails with [NotFound]; a status that does not permit the transition
    fails with [InvalidState] and leaves the registry as it is (section 7);
    otherwise the signal is put in the session's control slot, which the
    page loop reads at the next page boundary. *)
Definition control (sig : signal) (sid : string) (registry : gmap string Session)
  : (failure + Session) * gmap string Session :=
  match registry !! sid with
  | None => (inl NotFound, registry)
  | Some s =>
      match permits sig (state s) with
      | None => (inl InvalidState, registry)
      | Some _ =>
          let s' := {| id := id s; state := state s; progress := progress s;
                       current_page := current_page s;
                       total_page_count := total_page_count s;
                       format := format s; output_ref := output_ref s;
                       error_detail := error_detail s;
                       control_slot := Some sig |} in
          (inr s', <[sid := s']> registry)
      end
  end.

(** Modelled from the spec: [pause(session_id)] of section 6. *)
Definition pause : string → gmap string Session → (failure + Session) * gmap string Session :=
  control sig_pause.

End SessionController.

(** ** components/PreviewTable.js *)

Module PreviewTable.

Record state := { expanded : bool }.

(** [useState(false)] *)
Definition initial : state := {| expanded := false |}.

Definition toggleExpand (st : state) : state := {| expanded := negb (expanded st) |}.

(** The call made on the parent through the props. *)
Inductive callback := onPreviewReset.

(** [handleResetPreview]: the value the request resolves with is not
    looked at; a rejection is logged and nothing else happens.
    [has_callback] tells whether the [onPreviewReset] prop was passed. *)
Definition handleResetPreview {D} (api : Api.request → settled (Api.response D))
    (sessionId : string) (has_callback : bool) : list callback :=
  match Api.resetPreviewData api sessionId with
  | Resolves _ => if has_callback then [onPreviewReset] else []
  | Rejects _ => []
  end.

(** The rows of [data] are objects keyed by column name. *)
Definition row : Type := list (string * value).

(** What the [Collapse] holds: the notice, or the table with its head
    cells and, row by row, its body cells. *)
Inductive content :=
| NoData (notice : string)
| Table (head : list string) (body : list (list value)).

(** [row[column]]: the row's own value under that key and, when it has
    none, what it inherits.  [inherited] is what the prototype of the rows
    holds under a name ([undefined] for the names it lacks): rows parsed
    from JSON inherit from [Object.prototype], so that a column named
    ['constructor'] finds a value in every row. *)
Definition cell (inherited : string → value) (r : row) (column : string) : value :=
  default (inherited column) (field column r).

(** [(!data || data.length === 0) ? notice : table]; the table maps
    [columns] for the head and, inside [data.map], again for each row. *)
Definition render_content (inherited : string → value) (language : string)
    (data : option (list row)) (columns : list string) : content :=
  match data with
  | None | Some [] => NoData (I18n.t language "preview.noData")
  | Some rows => Table columns (map (λ r, map (cell inherited r) columns) rows)
  end.

(** The label of the expand button. *)
Definition toggle_label (language : string) (st : state) : string :=
  if expanded st then I18n.t language "preview.hidePreview"
  else I18n.t language "preview.showPreview".

End PreviewTable.

(** ** How App wires its children *)

Module Wiring.

(** [onStatusChange={handleStatusChange}] and
    [onFormatChange={handleFormatChange}] on [ConversionControls]. *)
Definition deliver (st : App.state) (cb : ConversionControls.callback) : App.state :=
  match cb with
  | ConversionControls.onStatusChange newStatus => App.handleStatusChange newStatus st
  | ConversionControls.onFormatChange format => App.handleFormatChange format st
  end.

Definition deliver_all (cbs : list ConversionControls.callback) (st : App.state) : App.state :=
  foldl deliver st cbs.

(** [onUploadSuccess={handleSessionCreated}] on [FileUploader]. *)
Definition uploaded (response : option reply) (st : App.state) : App.state :=
  match response with
  | Some sessionData => App.handleSessionCreated sessionData st
  | None => st
  end.

(** The service operation each control of [ConversionControls] calls. *)
Definition operation (h : handler) (sessionId : string) (st : ConversionControls.state)
  : option Service.operation :=
  match h with
  | handleStart =>
      Some (Service.op_startConversion sessionId (ConversionControls.outputFormat st))
  | handlePause => Some (Service.op_pauseConversion sessionId)
  | handleResume => Some (Service.op_resumeConversion sessionId)
  | handleCancel => Some (Service.op_cancelConversion sessionId)
  | _ => None
  end.

End Wiring.

(** ** Reading rendered trees and bundles *)

Module Query.

Definition is_progress_bar (n : node) : bool :=
  match n with LinearProgress _ _ _ => true | _ => false end.

(** The progress bars of a tree. *)
Definition progress_bars (n : node) : list node := List.filter is_progress_bar (flatten n).

(** The buttons of a tree that cannot be used. *)
Definition is_disabled_button (n : node) : bool :=
  match n with Button _ _ disabled => disabled | _ => false end.

(** The keys the components hand to [t], all of them literals. *)
Definition requested_keys : list string :=
  [ "app.description"; "app.title"; "controls.chooseAnotherFile";
    "controls.downloadCSV"; "controls.downloadExcel"; "conversion.cancel";
    "conversion.csv"; "conversion.excel"; "conversion.format"; "conversion.pause";
    "conversion.resume"; "conversion.start"; "conversion.status.completed";
    "conversion.status.error"; "conversion.status.paused";
    "conversion.status.pending"; "conversion.status.processing";
    "conversion.title"; "download.description"; "download.title";
    "error.conversion"; "error.fileSize"; "error.generic"; "error.invalidFile";
    "error.upload"; "language.en"; "language.he"; "language.switch";
    "preview.hidePreview"; "preview.noData"; "preview.returnToFirstPage";
    "preview.showPreview"; "preview.title"; "progress.analysis";
    "progress.completed"; "progress.title"; "upload.button"; "upload.dropzone";
    "upload.limits"; "upload.success"; "upload.title"; "uploading" ].

(** No string of a bundle is empty. *)
Fixpoint filled (v : value) : bool :=
  match v with
  | VStr s => negb (String.eqb s "")
  | VObj fs =>
      (fix all (fs : list (string * value)) : bool :=
         match fs with
         | [] => true
         | (_, w) :: rest => filled w && all rest
         end) fs
  | _ => true
  end.

End Query.

(** * Properties *)

(** ** The service layer *)

Section ServiceLayer.
Context {D : Type}.
Variable api : Api.request → settled (Api.response D).

Lemma handleApiError_throws (error : value) :
  ∃ exn, Api.handleApiError error = Throw exn
         ∧ (∃ m, get exn "message" = Normal m)
         ∧ (Service.readable error = true → Service.thrown error exn).
Proof.
  unfold Api.handleApiError, Service.readable, mbind, completion_bind.
  destruct (get error "response") as [response|exn] eqn:Hresp; cbn;
    [|destruct error; try discriminate; inversion Hresp;
      (eexists; split; [reflexivity|]; split; [cbn; eauto|discriminate])].
  destruct (truthy response) eqn:Hr.
  - destruct (get response "data") as [data|exn] eqn:Hdata; cbn;
      [|destruct response; discriminate].
    destruct (get response "status") as [code|exn] eqn:Hcode; cbn;
      [|destruct response; discriminate].
    destruct (get data "detail") as [detail|exn] eqn:Hdet; cbn;
      [|destruct data; try discriminate; inversion Hdet;
        (eexists; split; [reflexivity|]; split; [cbn; eauto|discriminate])].
    unfold or_else. destruct (truthy detail) eqn:Ht;
      (eexists; split; [reflexivity|]; split; [cbn; eauto|];
       intros _; eauto using Service.thrown).
  - destruct (get error "request") as [request|exn] eqn:Hreq; cbn;
      [|destruct error; discriminate].
    destruct (truthy request) eqn:Hq;
      (eexists; split; [reflexivity|]; split;
       [cbn; try (destruct error; try discriminate; cbn); eauto
       |intros _; eauto using Service.thrown]).
Qed.

Lemma send_settles (req : Api.request) :
  match api req with
  | Resolves r => Api.send api req = Resolves (Some (Api.data r))
  | Rejects error =>
      ∃ exn, Api.send api req = Rejects exn
             ∧ (∃ m, get exn "message" = Normal m)
             ∧ (Service.readable error = true → Service.thrown error exn)
  end.
Proof.
  unfold Api.send. destruct (api req) as [r|error]; [done|].
  destruct (handleApiError_throws error) as (exn & -> & Hexn). eauto.
Qed.

Lemma call_is_send (op : Service.operation) :
  Service.call api op = Api.send api (Service.request_of op).
Proof. by destruct op. Qed.

(** C6, amended. Each of the eight operations of the service layer,
    whatever the server does with its request: when axios fulfils the
    request the operation resolves with the response's data; when axios
    rejects it the operation throws, and never runs off its end to resolve
    with [undefined].  For an error object that [handleApiError] can read,
    what is thrown is the [Error] made from the detail of the reply, the
    [Error] with ['An error occurred'] when the reply has no detail, the
    [Error] with the no-response message, or the error axios gave. *)
Theorem api_operation_returns_data_or_throws (op : Service.operation) :
  match api (Service.request_of op) with
  | Resolves r => Service.call api op = Resolves (Some (Api.data r))
  | Rejects error =>
      (∃ exn, Service.call api op = Rejects exn
              ∧ (Service.readable error = true → Service.thrown error exn))
      ∧ Service.call api op ≠ Resolves None
  end.
Proof.
  rewrite call_is_send. pose proof (send_settles (Service.request_of op)) as H.
  destruct (api (Service.request_of op)) as [r|error]; [done|].
  destruct H as (exn & Hs & _ & Hexn). split; [eauto|]. by rewrite Hs.
Qed.

End ServiceLayer.

Lemma api_operation_returns_data_or_throws_witness :
  let error :=
    VObj [("response", VObj [("data", VObj [("detail", VStr "Session is not running")]);
                             ("status", VNum 400)])] in
  let api : Api.request → settled (Api.response reply) := λ _, Rejects error in
  Service.readable error = true
  ∧ ∃ exn, Service.call api (Service.op_pauseConversion "s-1") = Rejects exn
           ∧ Service.thrown error exn.
Proof.
  cbv zeta. split; [reflexivity|].
  destruct (api_operation_returns_data_or_throws
              (λ _ : Api.request,
                 Rejects
                   (VObj [("response",
                           VObj [("data", VObj [("detail", VStr "Session is not running")]);
                                 ("status", VNum 400)])]) : settled (Api.response reply))
              (Service.op_pauseConversion "s-1"))
    as [(exn & Hcall & Hthrown) _].
  exists exn. split; [exact Hcall|]. apply Hthrown. reflexivity.
Defined.

(** C6, as the claim has it, fails: an error reply whose body holds no
    detail makes the operation throw an [Error] with the default message
    ['An error occurred'], which is neither a detail the server supplied,
    nor the no-response message, nor the error axios gave. *)
Lemma error_reply_without_detail_throws_default :
  let error := VObj [("response", VObj [("data", VObj []); ("status", VNum 500)])] in
  let api : Api.request → settled (Api.response reply) := λ _, Rejects error in
  Service.call api (Service.op_pauseConversion "s-1")
  = Rejects (VError "Error" (VStr "An error occurred"))
  ∧ ¬ (∀ (api : Api.request → settled (Api.response reply)) (op : Service.operation),
         match api (Service.request_of op) with
         | Resolves r => Service.call api op = Resolves (Some (Api.data r))
         | Rejects error =>
             ∃ exn, Service.call api op = Rejects exn
                    ∧ ((∃ response data detail,
                          get error "response" = Normal response
                          ∧ get response "data" = Normal data
                          ∧ get data "detail" = Normal detail
                          ∧ truthy detail = true
                          ∧ exn = VError "Error" detail)
                       ∨ exn = VError "Error" (VStr Service.no_response_message)
                       ∨ exn = error)
         end).
Proof.
  cbv zeta. split; [reflexivity|].
  intros H.
  specialize (H (λ _, Rejects (VObj [("response",
                                       VObj [("data", VObj []); ("status", VNum 500)])]))
                (Service.op_pauseConversion "s-1")).
  cbn in H. destruct H as (exn & [= <-] & [Hdetail|[Hlost|Horiginal]]).
  - destruct Hdetail as (response & data & detail & [= <-] & [= <-] & [= <-] & Htruthy & _).
    discriminate Htruthy.
  - discriminate Hlost.
  - discriminate Horiginal.
Qed.

(** C8. The download URL does not depend on the selected format: the
    second argument [handleDownload] passes is dropped by [getDownloadUrl],
    so for every session the URL is the base URL, [/download/] and the
    session id, and choosing any two formats gives the same URL. *)
Theorem download_url_ignores_format
    (env : option string) (sessionId format1 format2 : string) (st : App.state) :
  Api.getDownloadUrl env [sessionId; format1]
    = Api.API_BASE_URL env ++ "/download/" ++ sessionId
  ∧ Api.getDownloadUrl env [sessionId; format1] = Api.getDownloadUrl env [sessionId]
  ∧ Api.getDownloadUrl env [sessionId; format1] = Api.getDownloadUrl env [sessionId; format2]
  ∧ App.handleDownload env (App.handleFormatChange format1 st)
    = App.handleDownload env (App.handleFormatChange format2 st).
Proof.
  repeat split; reflexivity.
Qed.

(** ** Document direction *)

Section DocumentDirection.

Lemma updateDocumentDirection_spec (l : string) (doc : I18n.document) :
  (I18n.dir (I18n.updateDocumentDirection l doc) = "rtl" ↔ l = "he")
  ∧ I18n.lang (I18n.updateDocumentDirection l doc) = l.
Proof.
  cbn. split; [|done].
  destruct (String.eqb_spec l "he") as [->|Hne]; split; try done.
Qed.

Lemma emit_after_set (l : string) (w : I18n.world) :
  I18n.subscribed w = true →
  I18n.settled_page (I18n.emit_languageChanged l (I18n.set_language l w)).
Proof.
  intros Hsub. unfold I18n.emit_languageChanged, I18n.set_language. cbn.
  rewrite Hsub. split; [done|].
  unfold I18n.direction_invariant, I18n.active_language. cbn -[I18n.updateDocumentDirection].
  apply updateDocumentDirection_spec.
Qed.

Lemma boot_settled (sync : bool) (doc : I18n.document) :
  I18n.settled_page (I18n.boot sync doc).
Proof.
  destruct sync; (split; [done|]); cbn; split; done.
Qed.

Lemma step_settled (w : I18n.world) (ev : I18n.event) :
  I18n.settled_page w → I18n.settled_page (I18n.step w ev).
Proof.
  intros [Hsub Hinv]. destruct ev as [|l]; cbn -[I18n.emit_languageChanged I18n.set_language].
  - destruct (I18n.init_pending w); [by apply emit_after_set | by split].
  - by apply emit_after_set.
Qed.

Lemma run_settled (evs : list I18n.event) (w : I18n.world) :
  I18n.settled_page w → I18n.settled_page (I18n.run w evs).
Proof.
  revert w. induction evs as [|ev evs IH]; intros w Hw; [done|].
  cbn. apply IH. by apply step_settled.
Qed.

(** C10. After the module has been evaluated, whether initialization
    settles at once or later, and after every further event of the i18next
    instance (initialization settling, any change of language), the
    document's [dir] is ['rtl'] exactly when the language in force is
    ['he'], and its [lang] is the language in force. *)
Theorem document_direction_follows_language
    (sync : bool) (doc : I18n.document) (evs : list I18n.event) :
  let w := I18n.run (I18n.boot sync doc) evs in
  (I18n.dir (I18n.page w) = "rtl" ↔ I18n.active_language w = "he")
  ∧ I18n.lang (I18n.page w) = I18n.active_language w.
Proof.
  cbv zeta. apply (run_settled evs (I18n.boot sync doc) (boot_settled sync doc)).
Qed.

End DocumentDirection.

(** ** Rendered trees *)

Section Trees.

Lemma existsb_flat_map (p : node → bool) (f : node → list node) (ns : list node) :
  existsb p (flat_map f ns) = existsb (λ n, existsb p (f n)) ns.
Proof.
  induction ns as [|n ns IH]; [done|]. cbn. by rewrite existsb_app, IH.
Qed.

Lemma shows_element (p : node → bool) (tag : string) (children : list node) :
  shows p (Element tag children) = p (Element tag children) || existsb (shows p) children.
Proof. unfold shows. cbn. by rewrite existsb_flat_map. Qed.

Lemma handlers_element (tag : string) (children : list node) :
  handlers (Element tag children) = flat_map handlers children.
Proof.
  unfold handlers. cbn. induction children as [|n ns IH]; [done|].
  cbn. by rewrite omap_app, IH.
Qed.

End Trees.

(** ** File uploader *)

Lemma t_upload_errors (language : string) :
  I18n.t language "error.fileSize" ≠ ""
  ∧ I18n.t language "error.invalidFile" ≠ ""
  ∧ I18n.t language "error.generic" ≠ "".
Proof.
  unfold I18n.t, I18n.resolve, I18n.resources.
  destruct (String.eqb language "en"); [|destruct (String.eqb language "he")];
    vm_compute; repeat split; discriminate.
Qed.

(** C9. Whatever the rejected drop holds (a file too large, a file of the
    wrong type, any other code, or no error record at all),
    [onDropRejected] leaves [uploadError] a string that is not empty, and
    the next render shows the error alert. *)
Theorem rejected_drop_raises_alert
    (language : string) (fileRejections : list FileUploader.rejection)
    (acceptedFiles : list FileUploader.file) (st : FileUploader.state) :
  let st' := FileUploader.onDropRejected language fileRejections st in
  (∃ s, FileUploader.uploadError st' = VStr s ∧ s ≠ "")
  ∧ shows is_error_alert (FileUploader.render language acceptedFiles st') = true.
Proof.
  cbv zeta.
  assert (∃ s, FileUploader.uploadError
                 (FileUploader.onDropRejected language fileRejections st) = VStr s
               ∧ s ≠ "") as Herr.
  { destruct (t_upload_errors language) as (Hsize & Htype & Hgen).
    unfold FileUploader.onDropRejected. repeat case_bool_decide; cbn; eauto. }
  split; [exact Herr|].
  destruct Herr as (s & Hs & Hne).
  unfold FileUploader.render. rewrite shows_element, !existsb_app, Hs.
  assert (truthy (VStr s) = true) as ->.
  { cbn. by destruct (String.eqb_spec s ""). }
  cbn. by rewrite !orb_true_r.
Qed.

(** ** Progress tracker *)

(** The labels of the five handled statuses of the session model are
    translations, in every language, and none of them is the status
    itself. *)
Lemma status_labels_are_translated (language : string) :
  I18n.t language "conversion.status.pending" ≠ "pending"
  ∧ I18n.t language "conversion.status.processing" ≠ "processing"
  ∧ I18n.t language "conversion.status.paused" ≠ "paused"
  ∧ I18n.t language "conversion.status.completed" ≠ "completed"
  ∧ I18n.t language "conversion.status.error" ≠ "error".
Proof.
  unfold I18n.t, I18n.resolve, I18n.resources.
  destruct (String.eqb language "en"); [|destruct (String.eqb language "he")];
    vm_compute; repeat split; discriminate.
Qed.

(** C2, as the claim has it, fails: the status [analyzing] of the session
    model is not among the cases of [getStatusConfig], which takes its
    default arm and returns the default configuration, showing the raw
    status. *)
Lemma analyzing_takes_default_arm :
  ¬ (∀ status : string,
       status ∈ ["pending"; "analyzing"; "processing"; "paused";
                 "completed"; "error"; "cancelled"] →
       ProgressTracker.switch status ≠ ProgressTracker.case_default)
  ∧ ProgressTracker.label (ProgressTracker.getStatusConfig "en" "analyzing") = "analyzing"
  ∧ ¬ (∀ status : string,
         status ∈ ["pending"; "analyzing"; "processing"; "paused";
                   "completed"; "error"; "cancelled"] →
         ProgressTracker.getStatusConfig "en" status
         ≠ {| ProgressTracker.icon := HourglassEmpty;
              ProgressTracker.color := "default";
              ProgressTracker.label := status |}).
Proof.
  assert ("analyzing" ∈ ["pending"; "analyzing"; "processing"; "paused";
                         "completed"; "error"; "cancelled"]) as Hin.
  { apply list_elem_of_In. cbn. tauto. }
  split; [|split; [reflexivity|]].
  - intros H. by apply (H "analyzing").
  - intros H. by apply (H "analyzing").
Qed.

(** C2, amended. Of the seven statuses of the session model,
    [getStatusConfig] has a case of its own for [pending], [processing],
    [paused], [completed] and [error], and returns for each its own icon
    and colour with the translation of its label, which is never the raw
    status; for [analyzing] and [cancelled] it takes the default arm,
    whose configuration is the hourglass icon, the default colour and the
    raw status as label. *)
Theorem status_config_cases (language status : string) :
  status ∈ ["pending"; "analyzing"; "processing"; "paused";
            "completed"; "error"; "cancelled"] →
  (ProgressTracker.switch status = ProgressTracker.case_default
   ↔ status = "analyzing" ∨ status = "cancelled")
  ∧ (status = "analyzing" ∨ status = "cancelled" →
     ProgressTracker.getStatusConfig language status
     = {| ProgressTracker.icon := HourglassEmpty;
          ProgressTracker.color := "default";
          ProgressTracker.label := status |})
  ∧ (status = "pending" →
     ProgressTracker.getStatusConfig language status
     = {| ProgressTracker.icon := HourglassEmpty;
          ProgressTracker.color := "default";
          ProgressTracker.label := I18n.t language "conversion.status.pending" |})
  ∧ (status = "processing" →
     ProgressTracker.getStatusConfig language status
     = {| ProgressTracker.icon := PlayArrow;
          ProgressTracker.color := "primary";
          ProgressTracker.label := I18n.t language "conversion.status.processing" |})
  ∧ (status = "paused" →
     ProgressTracker.getStatusConfig language status
     = {| ProgressTracker.icon := Pause;
          ProgressTracker.color := "secondary";
          ProgressTracker.label := I18n.t language "conversion.status.paused" |})
  ∧ (status = "completed" →
     ProgressTracker.getStatusConfig language status
     = {| ProgressTracker.icon := CheckCircle;
          ProgressTracker.color := "success";
          ProgressTracker.label := I18n.t language "conversion.status.completed" |})
  ∧ (status = "error" →
     ProgressTracker.getStatusConfig language status
     = {| ProgressTracker.icon := ErrorIcon;
          ProgressTracker.color := "error";
          ProgressTracker.label := I18n.t language "conversion.status.error" |})
  ∧ (status ≠ "analyzing" → status ≠ "cancelled" →
     ProgressTracker.label (ProgressTracker.getStatusConfig language status) ≠ status).
Proof.
  intros Hin. apply list_elem_of_In in Hin. cbn in Hin.
  destruct (status_labels_are_translated language)
    as (Hpending & Hprocessing & Hpaused & Hcompleted & Herror).
  destruct Hin as [<-|[<-|[<-|[<-|[<-|[<-|[<-|[]]]]]]]];
    (split; [split; [intros; try discriminate; auto
                    |intros [?|?]; (discriminate || reflexivity)]|]);
    (split; [intros [?|?]; (discriminate || reflexivity)|]);
    repeat (split; [intros ?; (discriminate || reflexivity)|]);
    intros ? ?; try done.
Qed.

Lemma status_config_cases_witness :
  ProgressTracker.switch "cancelled" = ProgressTracker.case_default
  ∧ ProgressTracker.label (ProgressTracker.getStatusConfig "he" "cancelled") = "cancelled".
Proof.
  assert ("cancelled" ∈ ["pending"; "analyzing"; "processing"; "paused";
                         "completed"; "error"; "cancelled"]) as Hin.
  { apply list_elem_of_In. simpl. tauto. }
  destruct (status_config_cases "he" "cancelled" Hin) as (Harm & Hcfg & _).
  split.
  - apply Harm. right. reflexivity.
  - rewrite Hcfg; [reflexivity|]. right. reflexivity.
Defined.

(** ** Conversion controls *)

(** Neither bundle has [error.conversion]: the key itself is shown. *)
Lemma t_error_conversion (language : string) :
  truthy (VStr (I18n.t language "error.conversion")) = true.
Proof.
  unfold I18n.t, I18n.resolve, I18n.resources.
  destruct (String.eqb language "en"); [|destruct (String.eqb language "he")];
    reflexivity.
Qed.

Section Controls.
Variable api : Api.request → settled (Api.response reply).
Variables language sessionId : string.

(** The controls the component wires, in the order they are rendered. *)
Lemma controls_handlers (status : string) (st : ConversionControls.state) :
  handlers (ConversionControls.render language status st)
  = ((if ConversionControls.isPending status then [handleFormatChange; handleStart] else [])
     ++ (if ConversionControls.isProcessing status then [handlePause] else [])
     ++ (if ConversionControls.isPaused status then [handleResume] else [])
     ++ (if ConversionControls.isProcessing status || ConversionControls.isPaused status
         then [handleCancel] else []))%list.
Proof.
  unfold ConversionControls.render.
  destruct (ConversionControls.isPending status),
    (ConversionControls.isProcessing status),
    (ConversionControls.isPaused status),
    (truthy (ConversionControls.error st)); reflexivity.
Qed.

Lemma controls_radio_group (status : string) (st : ConversionControls.state) :
  shows is_radio_group (ConversionControls.render language status st)
  = ConversionControls.isPending status.
Proof.
  unfold ConversionControls.render.
  destruct (ConversionControls.isPending status),
    (ConversionControls.isProcessing status),
    (ConversionControls.isPaused status),
    (truthy (ConversionControls.error st)); reflexivity.
Qed.

Lemma settle_keeps_format
    (outcome : settled (option reply)) (st : ConversionControls.state) :
  ConversionControls.outputFormat (ConversionControls.settle language outcome st).1
  = ConversionControls.outputFormat st.
Proof.
  unfold ConversionControls.settle.
  destruct outcome as [[response|]|exn]; cbn; [done|done|].
  by destruct (get exn "message").
Qed.

(** C3, as the claim has it, fails: with the session [pending] no cancel
    button is rendered. *)
Lemma pending_offers_no_cancel :
  ¬ (∀ (status : string) (st : ConversionControls.state),
       wired handleCancel (ConversionControls.render "en" status st) = true
       ↔ status = "processing" ∨ status = "paused" ∨ status = "pending")
  ∧ wired handleCancel
      (ConversionControls.render "en" "pending" ConversionControls.initial) = false.
Proof.
  split; [|reflexivity].
  intros H.
  destruct (H "pending" ConversionControls.initial) as [_ Hoffer].
  discriminate Hoffer. right. right. reflexivity.
Qed.

(** C3, amended. For every status, the cancel button is rendered exactly
    when the status is [processing] or [paused]. *)
Theorem cancel_offered_iff_processing_or_paused
    (status : string) (st : ConversionControls.state) :
  wired handleCancel (ConversionControls.render language status st) = true
  ↔ status = "processing" ∨ status = "paused".
Proof.
  unfold wired. rewrite bool_decide_eq_true, controls_handlers.
  unfold ConversionControls.isPending, ConversionControls.isProcessing,
    ConversionControls.isPaused.
  destruct (String.eqb_spec status "pending") as [Hpending|Hpending],
    (String.eqb_spec status "processing") as [Hprocessing|Hprocessing],
    (String.eqb_spec status "paused") as [Hpaused|Hpaused];
    cbn; rewrite list_elem_of_In; cbn; intuition congruence.
Qed.

Lemma handle_keeps_format
    (h : handler) (choice : string) (st : ConversionControls.state) :
  h ≠ handleFormatChange →
  ConversionControls.outputFormat
    (ConversionControls.handle api language sessionId h choice st).1
  = ConversionControls.outputFormat st.
Proof.
  intros Hh. destruct h; try done; apply settle_keeps_format.
Qed.

(** C4. When the status is anything but [pending], the format selector is
    not rendered and no control is wired to [handleFormatChange] or to
    [handleStart]; whichever rendered control is used, with whatever
    outcome of its request, the component's [outputFormat] stays what it
    was. *)
Theorem format_fixed_once_started
    (status : string) (st : ConversionControls.state) :
  status ≠ "pending" →
  shows is_radio_group (ConversionControls.render language status st) = false
  ∧ wired handleFormatChange (ConversionControls.render language status st) = false
  ∧ wired handleStart (ConversionControls.render language status st) = false
  ∧ ∀ (h : handler) (choice : string),
      h ∈ handlers (ConversionControls.render language status st) →
      ConversionControls.outputFormat
        (ConversionControls.handle api language sessionId h choice st).1
      = ConversionControls.outputFormat st.
Proof.
  intros Hstarted.
  assert (ConversionControls.isPending status = false) as Hpending.
  { unfold ConversionControls.isPending. by destruct (String.eqb_spec status "pending"). }
  assert ((handleFormatChange ∉ handlers (ConversionControls.render language status st))
          ∧ (handleStart ∉ handlers (ConversionControls.render language status st)))
    as [Hformat Hstart].
  { rewrite controls_handlers, Hpending.
    destruct (ConversionControls.isProcessing status),
      (ConversionControls.isPaused status); cbn;
      rewrite !list_elem_of_In; cbn; intuition discriminate. }
  repeat split.
  - by rewrite controls_radio_group.
  - unfold wired. by apply bool_decide_eq_false.
  - unfold wired. by apply bool_decide_eq_false.
  - intros h choice Hin. apply handle_keeps_format. by intros ->.
Qed.

(** No pause button is rendered for a paused session. *)
Lemma pause_offered_iff_processing (status : string) (st : ConversionControls.state) :
  wired handlePause (ConversionControls.render language status st) = true
  ↔ status = "processing".
Proof.
  unfold wired. rewrite bool_decide_eq_true, controls_handlers.
  unfold ConversionControls.isPending, ConversionControls.isProcessing,
    ConversionControls.isPaused.
  destruct (String.eqb_spec status "pending") as [Hpending|Hpending],
    (String.eqb_spec status "processing") as [Hprocessing|Hprocessing],
    (String.eqb_spec status "paused") as [Hpaused|Hpaused];
    cbn; rewrite list_elem_of_In; cbn; intuition congruence.
Qed.

(** A control request the server turns down is shown, and the parent's
    status is not touched. *)
Lemma rejected_control_request_is_shown
    (h : handler) (choice : string) (error : value) (st : ConversionControls.state)
    (req : Api.request) :
  api req = Rejects error →
  let after := ConversionControls.settle language (Api.send api req) st in
  truthy (ConversionControls.error after.1) = true ∧ after.2 = [].
Proof.
  intros Hreq. cbv zeta.
  pose proof (send_settles api req) as Hsend. rewrite Hreq in Hsend.
  destruct Hsend as (exn & -> & (m & Hm) & _).
  unfold ConversionControls.settle. rewrite Hm. cbn. split; [|done].
  unfold or_else. destruct (truthy m) eqn:Ht; [done|].
  apply t_error_conversion.
Qed.

End Controls.

Lemma format_fixed_once_started_witness :
  let api : Api.request → settled (Api.response reply) := λ _, Rejects VNull in
  "processing" ≠ "pending"
  ∧ wired handleFormatChange
      (ConversionControls.render "en" "processing" ConversionControls.initial) = false
  ∧ ConversionControls.outputFormat
      (ConversionControls.handle api "en" "s-1" handleCancel "csv"
         ConversionControls.initial).1 = "xlsx".
Proof.
  cbv zeta.
  assert ("processing" ≠ "pending") as Hne by discriminate.
  destruct (format_fixed_once_started (λ _, Rejects VNull) "en" "s-1" "processing"
              ConversionControls.initial Hne) as (_ & Hformat & _ & Hkeep).
  split; [exact Hne|]. split; [exact Hformat|].
  apply Hkeep. apply list_elem_of_In. simpl. tauto.
Defined.

(** ** App *)

Section AppTree.
Variable language : string.

Lemma uploader_handlers
    (acceptedFiles : list FileUploader.file) (st : FileUploader.state) :
  handlers (FileUploader.render language acceptedFiles st)
  = dropzoneInput ::
    (if bool_decide (is_Some (head acceptedFiles))
        && negb (FileUploader.uploadSuccess st) && negb (FileUploader.uploading st)
     then [handleUpload] else []).
Proof.
  unfold FileUploader.render.
  destruct (head acceptedFiles), (FileUploader.uploadSuccess st),
    (FileUploader.uploading st), (truthy (FileUploader.uploadError st)); reflexivity.
Qed.

Lemma tracker_handlers (p : ProgressTracker.props) :
  handlers (ProgressTracker.render language p) = [].
Proof.
  unfold ProgressTracker.render.
  destruct (truthy (ProgressTracker.p_error p)); reflexivity.
Qed.

Lemma app_handlers (kids : App.children) (st : App.state) :
  handlers (App.render language kids st)
  = (handleLanguageMenuOpen ::
     (if App.languageMenu st then [changeLanguage "he"; changeLanguage "en"] else [])
     ++ match App.session st with
        | None =>
            handlers (FileUploader.render language (App.acceptedFiles kids) (App.uploader kids))
        | Some _ =>
            handlers (ConversionControls.render language (App.status st) (App.controls kids))
            ++ (if String.eqb (App.status st) "completed"
                then [VDom.handleDownload; VDom.handleReturnToFileSelection] else [])
        end)%list.
Proof.
  unfold App.render.
  repeat (rewrite handlers_element; cbn [flat_map]).
  destruct (App.session st), (App.languageMenu st),
    (String.eqb (App.status st) "completed");
    cbn [flat_map when app];
    repeat (rewrite handlers_element; cbn [flat_map]);
    rewrite ?tracker_handlers, ?app_nil_r; reflexivity.
Qed.

(** C5. In the tree [App] renders, a control wired to [handleDownload],
    the one caller of [getDownloadUrl], is present exactly when there is a
    session and its status is [completed]; for every other status there
    is none. *)
Theorem download_offered_only_when_completed (kids : App.children) (st : App.state) :
  wired VDom.handleDownload (App.render language kids st) = true
  ↔ is_Some (App.session st) ∧ App.status st = "completed".
Proof.
  unfold wired. rewrite bool_decide_eq_true, app_handlers.
  rewrite elem_of_cons, !elem_of_app.
  assert (VDom.handleDownload ∉
            (if App.languageMenu st then [changeLanguage "he"; changeLanguage "en"] else []))
    as Hmenu.
  { destruct (App.languageMenu st); rewrite list_elem_of_In; cbn; intuition discriminate. }
  destruct (App.session st) as [s|].
  - rewrite elem_of_app, controls_handlers.
    assert (VDom.handleDownload ∉
              ((if ConversionControls.isPending (App.status st)
                then [handleFormatChange; handleStart] else [])
               ++ (if ConversionControls.isProcessing (App.status st)
                   then [handlePause] else [])
               ++ (if ConversionControls.isPaused (App.status st)
                   then [handleResume] else [])
               ++ (if ConversionControls.isProcessing (App.status st)
                      || ConversionControls.isPaused (App.status st)
                   then [handleCancel] else []))%list) as Hcontrols.
    { destruct (ConversionControls.isPending (App.status st)),
        (ConversionControls.isProcessing (App.status st)),
        (ConversionControls.isPaused (App.status st));
        rewrite list_elem_of_In; cbn; intuition discriminate. }
    destruct (String.eqb_spec (App.status st) "completed") as [Hdone|Hdone].
    + split; [by eauto|]. intros _. right. right. right. apply list_elem_of_here.
    + split; [|by intros [_ ?]].
      intros [?|[?|[?|Hin]]]; try done. by apply elem_of_nil in Hin.
  - rewrite uploader_handlers. split; [|by intros [[? ?] _]].
    intros [?|[?|Hin]]; try done.
    apply list_elem_of_In in Hin. cbn in Hin.
    destruct Hin as [?|Hin]; [done|].
    destruct (_ && _); cbn in Hin; intuition discriminate.
Qed.

End AppTree.

(** ** Progress polling *)

(** C1, as the claim has it, fails: a snapshot that reports [cancelled]
    leaves [polling] set and the interval live. *)
Lemma cancelled_snapshot_keeps_polling :
  let session := {| session_id := "s-1"; status := "processing";
                    progress := 0; error := VNull |} in
  let st := App.handleSessionCreated session App.initial in
  let snapshot := {| session_id := "s-1"; status := "cancelled";
                     progress := 40; error := VNull |} in
  let st' := App.tick (Resolves (Some snapshot)) st in
  (App.status st' = "cancelled" ∧ App.polling st' = true ∧ App.interval st' = true)
  ∧ ¬ (∀ (snapshot : reply) (st : App.state),
         status snapshot = "completed" ∨ status snapshot = "error"
         ∨ status snapshot = "cancelled" →
         App.polling (App.tick (Resolves (Some snapshot)) st) = false
         ∧ App.interval (App.tick (Resolves (Some snapshot)) st) = false).
Proof.
  cbv zeta. split; [repeat split|].
  intros H.
  destruct (H {| session_id := "s-1"; status := "cancelled";
                 progress := 40; error := VNull |}
              (App.handleSessionCreated
                 {| session_id := "s-1"; status := "processing";
                    progress := 0; error := VNull |} App.initial))
    as [Hpolling _]; [right; right; reflexivity|].
  discriminate Hpolling.
Qed.

(** C1, amended. For every polled snapshot, once the reported status is
    [completed] or [error] the polling loop stops: [polling] is false and
    the effect that follows clears the interval, so no later tick runs.  A
    snapshot with any other status, [cancelled] included, leaves [polling]
    as it was. *)
Theorem polling_stops_on_completed_or_error
    (api : Api.request → settled (Api.response reply))
    (snapshot : reply) (st : App.state) :
  let st' := App.tick (Resolves (Some snapshot)) st in
  (status snapshot = "completed" ∨ status snapshot = "error" →
   App.polling st' = false ∧ App.interval st' = false ∧ App.poll api st' = st')
  ∧ (status snapshot ≠ "completed" → status snapshot ≠ "error" →
     App.polling st' = App.polling st).
Proof.
  cbv zeta. unfold App.poll, App.tick.
  destruct (String.eqb_spec (status snapshot) "completed") as [Hdone|Hdone],
    (String.eqb_spec (status snapshot) "error") as [Herr|Herr]; cbn;
    (split; [intros [?|?]; try done; by destruct (App.session st) | by intros]).
Qed.

Lemma polling_stops_on_completed_or_error_witness :
  let session := {| session_id := "s-1"; status := "processing";
                    progress := 0; error := VNull |} in
  let st := App.handleSessionCreated session App.initial in
  let snapshot := {| session_id := "s-1"; status := "completed";
                     progress := 100; error := VNull |} in
  let st' := App.tick (Resolves (Some snapshot)) st in
  App.interval st = true
  ∧ App.polling st' = false ∧ App.interval st' = false
  ∧ App.poll (λ _, Rejects VNull) st' = st'.
Proof.
  cbv zeta. split; [reflexivity|].
  apply (polling_stops_on_completed_or_error (λ _, Rejects VNull)).
  left. reflexivity.
Defined.

(** The same guard in [handleStatusChange]: a control request answered
    with [cancelled] switches polling on. *)
Lemma status_change_to_cancelled_polls (st : App.state) :
  App.polling (App.handleStatusChange "cancelled" st) = true.
Proof. reflexivity. Qed.

(** ** Session controller *)

(** C7. Against the session controller of the specification, [pause] on a
    session whose status is [paused] fails with [InvalidState], and the
    registry it hands back is the one it was given. *)
Theorem pause_on_paused_is_invalid_state
    (sid : string) (s : SessionController.Session)
    (registry : gmap string SessionController.Session) :
  registry !! sid = Some s →
  SessionController.state s = SessionController.paused →
  SessionController.pause sid registry = (inl SessionController.InvalidState, registry).
Proof.
  intros Hfound Hpaused.
  unfold SessionController.pause, SessionController.control.
  by rewrite Hfound, Hpaused.
Qed.

Lemma pause_on_paused_is_invalid_state_witness :
  let s := {| SessionController.id := "s-1";
              SessionController.state := SessionController.paused;
              SessionController.progress := 40;
              SessionController.current_page := 2;
              SessionController.total_page_count := 5;
              SessionController.format := Some SessionController.csv;
              SessionController.output_ref := None;
              SessionController.error_detail := None;
              SessionController.control_slot := None |} in
  let registry : gmap string SessionController.Session := {[ "s-1" := s ]} in
  registry !! "s-1" = Some s
  ∧ SessionController.pause "s-1" registry = (inl SessionController.InvalidState, registry).
Proof.
  cbv zeta. split; [reflexivity|].
  apply pause_on_paused_is_invalid_state with (s := {|
    SessionController.id := "s-1";
    SessionController.state := SessionController.paused;
    SessionController.progress := 40;
    SessionController.current_page := 2;
    SessionController.total_page_count := 5;
    SessionController.format := Some SessionController.csv;
    SessionController.output_ref := None;
    SessionController.error_detail := None;
    SessionController.control_slot := None |}); reflexivity.
Defined.

(** * Further properties of the client *)

(** ** Translations *)

Section Bundles.

Lemma field_filled (k : string) (fs : list (string * value)) (w : value) :
  Query.filled (VObj fs) = true → field k fs = Some w → Query.filled w = true.
Proof.
  induction fs as [|[k' v] rest IH]; [done|].
  cbn. intros [Hv Hrest]%andb_true_iff.
  destruct (field k rest) as [w'|] eqn:Hfield.
  - intros [= <-]. by apply IH.
  - destruct (String.eqb k k'); [by intros [= <-]|done].
Qed.

Lemma deep_filled (path : list string) (v : value) :
  Query.filled v = true → Query.filled (I18n.deep path v) = true.
Proof.
  revert v. induction path as [|k rest IH]; intros v Hv; [done|].
  destruct v as [| | | | |fs|]; try done.
  cbn [I18n.deep]. apply IH.
  destruct (field k fs) as [w|] eqn:Hfield; [|done].
  by apply (field_filled k fs).
Qed.

Lemma resolve_filled (code key : string) :
  Query.filled (I18n.resolve code key) = true.
Proof.
  unfold I18n.resolve, I18n.resources.
  destruct (String.eqb code "en"); [by apply deep_filled; vm_compute|].
  destruct (String.eqb code "he"); [by apply deep_filled; vm_compute|done].
Qed.

Lemma t_filled (language key : string) :
  key ≠ "" → I18n.t language key ≠ "".
Proof.
  intros Hkey. unfold I18n.t.
  pose proof (resolve_filled language key) as Hown.
  pose proof (resolve_filled I18n.fallbackLng key) as Hfallback.
  destruct (I18n.resolve language key) as [| | | |s|fs|];
    try (destruct (I18n.resolve I18n.fallbackLng key) as [| | | |s'|fs'|]; cbn;
         try done; cbn in Hfallback; by destruct (String.eqb_spec s' "")).
  cbn in Hown. by destruct (String.eqb_spec s "").
Qed.

(** X1. Every text the components ask [t] for is shown: for each of the
    keys they pass and in every language, [t] answers with a string that
    is not empty, a translation from one of the two bundles or, for the
    keys neither bundle defines, the key itself. *)
Theorem t_never_blank (language key : string) :
  key ∈ Query.requested_keys → I18n.t language key ≠ "".
Proof.
  intros Hin. apply t_filled. intros ->.
  apply list_elem_of_In in Hin. cbn in Hin. intuition discriminate.
Qed.

Lemma t_never_blank_witness :
  "error.fileSize" ∈ Query.requested_keys ∧ I18n.t "he" "error.fileSize" ≠ "".
Proof.
  assert ("error.fileSize" ∈ Query.requested_keys) as Hin.
  { apply list_elem_of_In. simpl. tauto. }
  split; [exact Hin|]. exact (t_never_blank "he" "error.fileSize" Hin).
Defined.

End Bundles.

(** ** Requests *)

(** X2. Two calls of the service layer put the same request on the wire
    only when they are the same operation on the same arguments: the
    routes of the eight operations never collide, whatever the session
    ids. *)
Theorem requests_distinct (op1 op2 : Service.operation) :
  Service.request_of op1 = Service.request_of op2 → op1 = op2.
Proof.
  destruct op1, op2; cbn; intros H; by simplify_eq.
Qed.

Lemma requests_distinct_witness :
  Service.op_pauseConversion "s-1" = Service.op_pauseConversion "s-1".
Proof.
  apply (requests_distinct (Service.op_pauseConversion "s-1")
           (Service.op_pauseConversion "s-1")).
  reflexivity.
Defined.

(** ** Preview table *)

(** X3. Resetting the preview calls [onPreviewReset] exactly when the
    server accepted the request and the prop was passed; a rejected
    request calls nothing, whatever the reason of the rejection. *)
Theorem preview_reset_notifies_iff_accepted {D : Type}
    (api : Api.request → settled (Api.response D)) (sessionId : string)
    (has_callback : bool) :
  PreviewTable.handleResetPreview api sessionId has_callback
  = match api (Service.request_of (Service.op_resetPreviewData sessionId)) with
    | Resolves _ => if has_callback then [PreviewTable.onPreviewReset] else []
    | Rejects _ => []
    end.
Proof.
  unfold PreviewTable.handleResetPreview, Api.resetPreviewData.
  pose proof (send_settles api
                (Service.request_of (Service.op_resetPreviewData sessionId))) as Hsend.
  cbn in Hsend |- *.
  destruct (api _) as [r|error]; [by rewrite Hsend|].
  by destruct Hsend as (exn & -> & _).
Qed.

(** X4. With no data, or with an empty list of rows, the notice is shown
    whatever the columns.  Otherwise the table has the columns as its
    head and one body row per data row, each with as many cells as there
    are columns; the cell of row [i] under column [j] is the row's own
    value under that column's name, and what the row inherits under that
    name when it has no such key of its own. *)
Theorem preview_table_is_rectangular
    (inherited : string → value) (language : string)
    (data : option (list PreviewTable.row)) (columns : list string) :
  match PreviewTable.render_content inherited language data columns with
  | PreviewTable.NoData notice =>
      (data = None ∨ data = Some []) ∧ notice ≠ ""
  | PreviewTable.Table head body =>
      ∃ rows, data = Some rows ∧ rows ≠ [] ∧ head = columns
        ∧ length body = length rows
        ∧ Forall (λ cells, length cells = length columns) body
        ∧ ∀ (i j : nat) (r : PreviewTable.row) (column : string),
            rows !! i = Some r → columns !! j = Some column →
            body !! i ≫= (λ cells, cells !! j)
            = Some (match field column r with
                    | Some own => own
                    | None => inherited column
                    end)
  end.
Proof.
  unfold PreviewTable.render_content.
  destruct data as [[|r0 rows]|].
  - split; [by right|]. by apply t_filled.
  - exists (r0 :: rows). repeat split; try done.
    + by rewrite length_map.
    + apply Forall_forall. intros cells [r [-> _]]%list_elem_of_fmap.
      by rewrite length_map.
    + intros i j r column Hi Hj.
      change (map ?f ?l) with (f <$> l).
      rewrite list_lookup_fmap, Hi. cbn.
      change (map ?f ?l) with (f <$> l).
      rewrite list_lookup_fmap, Hj. cbn. unfold PreviewTable.cell.
      by destruct (field column r).
  - split; [by left|]. by apply t_filled.
Qed.

(** ** File uploader, beyond rejected drops *)

Section Uploads.
Variable api : Api.request → settled (Api.response reply).
Variable language : string.

(** Neither bundle has [error.upload]. *)
Lemma t_error_upload : truthy (VStr (I18n.t language "error.upload")) = true.
Proof.
  unfold I18n.t, I18n.resolve, I18n.resources.
  destruct (String.eqb language "en"); [|destruct (String.eqb language "he")];
    reflexivity.
Qed.

(** X5. Only the first error of the first rejection decides the message
    of a rejected drop.  For a file that is too large or of the wrong type
    the message is the untranslated key, in every language, because
    neither bundle defines [error.fileSize] or [error.invalidFile]. *)
Theorem rejected_drop_shows_key
    (fileRejections : list FileUploader.rejection) (e : FileUploader.file_error)
    (st : FileUploader.state) :
  head fileRejections ≫= (λ r, head (FileUploader.errors r)) = Some e →
  (FileUploader.code e = "file-too-large" →
   FileUploader.uploadError (FileUploader.onDropRejected language fileRejections st)
   = VStr "error.fileSize")
  ∧ (FileUploader.code e = "file-invalid-type" →
     FileUploader.uploadError (FileUploader.onDropRejected language fileRejections st)
     = VStr "error.invalidFile").
Proof.
  intros Hfirst. unfold FileUploader.onDropRejected. rewrite Hfirst. cbn.
  assert (∀ key, key = "error.fileSize" ∨ key = "error.invalidFile" →
                 I18n.t language key = key) as Hmissing.
  { intros key Hkey. unfold I18n.t, I18n.resolve, I18n.resources.
    destruct (String.eqb language "en"); [|destruct (String.eqb language "he")];
      destruct Hkey as [->| ->]; reflexivity. }
  split; intros ->; repeat case_bool_decide; try congruence;
    cbn; f_equal; apply Hmissing; auto.
Qed.

(** X6. When the upload request is rejected, whatever the error, the
    uploader ends with a message to show, no success mark and the spinner
    off; the parent is not told of any session, and the next render shows
    the error alert. *)
Theorem failed_upload_is_shown
    (f : FileUploader.file) (error : value) (acceptedFiles : list FileUploader.file)
    (st : FileUploader.state) :
  api (Service.request_of (Service.op_uploadFile (FileUploader.name f))) = Rejects error →
  let after := FileUploader.on_upload language api (Some f) st in
  truthy (FileUploader.uploadError after.1) = true
  ∧ FileUploader.uploadSuccess after.1 = false
  ∧ FileUploader.uploading after.1 = false
  ∧ after.2 = None
  ∧ shows is_error_alert (FileUploader.render language acceptedFiles after.1) = true.
Proof.
  intros Hreq. cbv zeta.
  pose proof (send_settles api
                (Service.request_of (Service.op_uploadFile (FileUploader.name f)))) as Hsend.
  rewrite Hreq in Hsend. destruct Hsend as (exn & Hsend & (m & Hm) & _).
  assert (truthy (or_else m (VStr (I18n.t language "error.upload"))) = true) as Hshown.
  { unfold or_else. destruct (truthy m) eqn:Ht; [done|apply t_error_upload]. }
  assert (FileUploader.on_upload language api (Some f) st
          = ({| FileUploader.uploading := false;
                FileUploader.uploadError :=
                  or_else m (VStr (I18n.t language "error.upload"));
                FileUploader.uploadSuccess := false |}, None)) as ->.
  { unfold FileUploader.on_upload, Api.uploadFile. cbn in Hsend. by rewrite Hsend, Hm. }
  cbn [fst snd FileUploader.uploadError FileUploader.uploadSuccess FileUploader.uploading].
  repeat split; try done.
  unfold FileUploader.render. rewrite shows_element, !existsb_app.
  cbn [FileUploader.uploadError]. rewrite Hshown. cbn. by rewrite !orb_true_r.
Qed.

End Uploads.

Lemma rejected_drop_shows_key_witness :
  let big := {| FileUploader.name := "scan.pdf"; FileUploader.size := 20000000 |} in
  let first := {| FileUploader.code := "file-too-large";
                  FileUploader.message := "File is larger than 10485760 bytes" |} in
  let rejections :=
    [ {| FileUploader.rejected := big;
         FileUploader.errors :=
           [ first;
             {| FileUploader.code := "file-invalid-type";
                FileUploader.message := "File type must be application/pdf" |} ] |} ] in
  head rejections ≫= (λ r, head (FileUploader.errors r)) = Some first
  ∧ FileUploader.uploadError
      (FileUploader.onDropRejected "he" rejections FileUploader.initial)
    = VStr "error.fileSize".
Proof.
  cbv zeta. split; [reflexivity|].
  eapply (rejected_drop_shows_key "he"); reflexivity.
Defined.

Lemma failed_upload_is_shown_witness :
  let api : Api.request → settled (Api.response reply) :=
    λ _, Rejects (VObj [("request", VObj [])]) in
  let f := {| FileUploader.name := "scan.pdf"; FileUploader.size := 1024 |} in
  let after := FileUploader.on_upload "en" api (Some f) FileUploader.initial in
  FileUploader.uploadError after.1 = VStr Service.no_response_message
  ∧ truthy (FileUploader.uploadError after.1) = true
  ∧ after.2 = None.
Proof.
  cbv zeta. split; [reflexivity|].
  destruct (failed_upload_is_shown (λ _, Rejects (VObj [("request", VObj [])])) "en"
              {| FileUploader.name := "scan.pdf"; FileUploader.size := 1024 |}
              (VObj [("request", VObj [])]) [] FileUploader.initial eq_refl)
    as (Hshown & _ & _ & Hnone & _).
  split; [exact Hshown|exact Hnone].
Defined.

(** ** App, beyond the download block *)

Section AppScreens.
Variable language : string.
Variable kids : App.children.

(** With a session, the controls on the page are among these ten. *)
Lemma app_session_handlers (st : App.state) (s : reply) (h : handler) :
  App.session st = Some s →
  h ∈ handlers (App.render language kids st) →
  h ∈ [handleLanguageMenuOpen; changeLanguage "he"; changeLanguage "en";
       handleFormatChange; handleStart; handlePause; handleResume; handleCancel;
       VDom.handleDownload; VDom.handleReturnToFileSelection].
Proof.
  intros Hs. rewrite app_handlers, Hs, controls_handlers.
  destruct (App.languageMenu st), (ConversionControls.isPending (App.status st)),
    (ConversionControls.isProcessing (App.status st)),
    (ConversionControls.isPaused (App.status st)),
    (String.eqb (App.status st) "completed");
    rewrite !list_elem_of_In; cbn; intuition auto.
Qed.

(** X7. When the upload request is fulfilled, the uploader marks success
    and hands the reply to the parent, which then holds it as its session,
    takes its status, and has polling switched on with the interval live
    (before any conversion is started); the page no longer has an upload
    button. *)
Theorem accepted_upload_opens_session
    (api : Api.request → settled (Api.response reply))
    (f : FileUploader.file) (r : Api.response reply)
    (st : FileUploader.state) (app : App.state) :
  api (Service.request_of (Service.op_uploadFile (FileUploader.name f))) = Resolves r →
  let after := FileUploader.on_upload language api (Some f) st in
  let app' := Wiring.uploaded after.2 app in
  FileUploader.uploadSuccess after.1 = true
  ∧ App.session app' = Some (Api.data r)
  ∧ App.status app' = status (Api.data r)
  ∧ App.polling app' = true
  ∧ App.interval app' = true
  ∧ wired handleUpload (App.render language kids app') = false.
Proof.
  intros Hreq. cbv zeta.
  assert (FileUploader.on_upload language api (Some f) st
          = ({| FileUploader.uploading := false; FileUploader.uploadError := VNull;
                FileUploader.uploadSuccess := true |}, Some (Api.data r))) as ->.
  { unfold FileUploader.on_upload, Api.uploadFile, Api.send. cbn in Hreq. by rewrite Hreq. }
  cbn [fst snd Wiring.uploaded FileUploader.uploadSuccess].
  repeat split.
  unfold wired. apply bool_decide_eq_false. intros Hin.
  apply (app_session_handlers _ (Api.data r)) in Hin; [|done].
  apply list_elem_of_In in Hin. cbn in Hin. intuition discriminate.
Qed.

(** X8. With a session whose status is none of [pending], [processing],
    [paused] and [completed] (so for [error], [cancelled] or [analysis]),
    the page offers the language menu and nothing else: no control starts,
    cancels, downloads or goes back to file selection. *)
Theorem unhandled_status_leaves_only_language_menu (st : App.state) :
  is_Some (App.session st) →
  App.status st ∉ ["pending"; "processing"; "paused"; "completed"] →
  handlers (App.render language kids st)
  = handleLanguageMenuOpen ::
    (if App.languageMenu st then [changeLanguage "he"; changeLanguage "en"] else []).
Proof.
  intros [s Hs] Hstatus. rewrite app_handlers, Hs, controls_handlers.
  unfold ConversionControls.isPending, ConversionControls.isProcessing,
    ConversionControls.isPaused.
  rewrite list_elem_of_In in Hstatus. cbn in Hstatus.
  destruct (String.eqb_spec (App.status st) "pending"); [intuition congruence|].
  destruct (String.eqb_spec (App.status st) "processing"); [intuition congruence|].
  destruct (String.eqb_spec (App.status st) "paused"); [intuition congruence|].
  destruct (String.eqb_spec (App.status st) "completed"); [intuition congruence|].
  cbn. by rewrite app_nil_r.
Qed.

(** X9. Whenever the page has the download button, using it opens a URL:
    there is a session, and [handleDownload] hands [window.open] the base
    URL followed by [/download/] and the id of that session. *)
Theorem download_click_opens_url (env : option string) (st : App.state) :
  wired VDom.handleDownload (App.render language kids st) = true →
  ∃ s, App.session st = Some s
       ∧ App.handleDownload env st
         = Some (Api.API_BASE_URL env ++ "/download/" ++ session_id s).
Proof.
  unfold wired. rewrite bool_decide_eq_true, app_handlers.
  destruct (App.session st) as [s|] eqn:Hs.
  - intros _. exists s. split; [done|]. unfold App.handleDownload. by rewrite Hs.
  - rewrite uploader_handlers. intros Hin. exfalso.
    apply list_elem_of_In in Hin.
    destruct (App.languageMenu st), (_ && _); cbn in Hin; intuition discriminate.
Qed.

End AppScreens.

Lemma accepted_upload_opens_session_witness :
  let sessionData := {| session_id := "s-1"; status := "pending";
                        progress := 0; error := VNull |} in
  let api : Api.request → settled (Api.response reply) :=
    λ _, Resolves {| Api.data := sessionData; Api.http_status := 200 |} in
  let kids := {| App.uploader := FileUploader.initial; App.acceptedFiles := [];
                 App.controls := ConversionControls.initial |} in
  let f := {| FileUploader.name := "scan.pdf"; FileUploader.size := 1024 |} in
  let after := FileUploader.on_upload "en" api (Some f) FileUploader.initial in
  let app' := Wiring.uploaded after.2 App.initial in
  App.session app' = Some sessionData ∧ App.interval app' = true
  ∧ wired handleUpload (App.render "en" kids app') = false.
Proof.
  cbv zeta.
  destruct (accepted_upload_opens_session "en"
              {| App.uploader := FileUploader.initial; App.acceptedFiles := [];
                 App.controls := ConversionControls.initial |}
              (λ _, Resolves {| Api.data := {| session_id := "s-1"; status := "pending";
                                               progress := 0; error := VNull |};
                                Api.http_status := 200 |})
              {| FileUploader.name := "scan.pdf"; FileUploader.size := 1024 |}
              {| Api.data := {| session_id := "s-1"; status := "pending";
                                progress := 0; error := VNull |};
                 Api.http_status := 200 |}
              FileUploader.initial App.initial eq_refl)
    as (_ & Hsession & _ & _ & Hinterval & Hupload).
  split; [exact Hsession|]. split; [exact Hinterval|exact Hupload].
Defined.

Lemma unhandled_status_leaves_only_language_menu_witness :
  let cancelled := {| session_id := "s-1"; status := "cancelled";
                      progress := 40; error := VNull |} in
  let kids := {| App.uploader := FileUploader.initial; App.acceptedFiles := [];
                 App.controls := ConversionControls.initial |} in
  let st := App.handleSessionCreated cancelled App.initial in
  is_Some (App.session st)
  ∧ handlers (App.render "en" kids st) = [handleLanguageMenuOpen].
Proof.
  cbv zeta. split; [by eexists|].
  apply (unhandled_status_leaves_only_language_menu "en").
  - by eexists.
  - rewrite list_elem_of_In. simpl. intuition discriminate.
Defined.

Lemma download_click_opens_url_witness :
  let done := {| session_id := "s-1"; status := "completed";
                 progress := 100; error := VNull |} in
  let kids := {| App.uploader := FileUploader.initial; App.acceptedFiles := [];
                 App.controls := ConversionControls.initial |} in
  let st := App.handleSessionCreated done App.initial in
  wired VDom.handleDownload (App.render "en" kids st) = true
  ∧ ∃ s, App.session st = Some s
         ∧ App.handleDownload None st
           = Some (Api.API_BASE_URL None ++ "/download/" ++ session_id s).
Proof.
  cbv zeta. split; [reflexivity|].
  apply (download_click_opens_url "en"
           {| App.uploader := FileUploader.initial; App.acceptedFiles := [];
              App.controls := ConversionControls.initial |}).
  reflexivity.
Defined.

(** ** Polling, beyond the stop condition *)

Section Polling.
Variable api : Api.request → settled (Api.response reply).

(** X10. A progress request that is rejected, whatever the error, leaves
    the whole state of [App] as it was: nothing is shown, and [polling]
    and the interval stay as they are, so the next second asks again. *)
Theorem failed_poll_changes_nothing (st : App.state) (s : reply) (error : value) :
  App.session st = Some s →
  api (Service.request_of (Service.op_getSessionProgress (session_id s))) = Rejects error →
  App.poll api st = st.
Proof.
  intros Hs Hreq. unfold App.poll. rewrite Hs.
  destruct (App.interval st); [|done].
  pose proof (send_settles api
                (Service.request_of (Service.op_getSessionProgress (session_id s))))
    as Hsend.
  rewrite Hreq in Hsend. destruct Hsend as (exn & Hsend & _).
  unfold Api.getSessionProgress. cbn in Hsend. by rewrite Hsend.
Qed.

(** X11. The error text of a snapshot is taken over, and shown by the
    progress tracker on the page, when the snapshot reports [completed] or
    [error]; with any other status the snapshot's error text is dropped
    and the stored one stays. *)
Theorem snapshot_error_is_shown_when_terminal
    (language : string) (kids : App.children)
    (snapshot s : reply) (st : App.state) :
  App.session st = Some s →
  let st' := App.tick (Resolves (Some snapshot)) st in
  (status snapshot = "completed" ∨ status snapshot = "error" →
   truthy (error snapshot) = true →
   App.error st' = error snapshot
   ∧ shows is_error_alert (App.render language kids st') = true)
  ∧ (status snapshot ≠ "completed" → status snapshot ≠ "error" →
     App.error st' = App.error st).
Proof.
  intros Hs. cbv zeta. split.
  - intros Hterminal Herror.
    assert (App.error (App.tick (Resolves (Some snapshot)) st) = error snapshot) as Hstored.
    { unfold App.tick. cbn. rewrite Herror.
      destruct Hterminal as [-> | ->]; cbn; [done|].
      by destruct (String.eqb (status snapshot) "completed"). }
    split; [done|].
    unfold App.render.
    assert (App.session (App.tick (Resolves (Some snapshot)) st) = Some s) as -> by done.
    repeat (rewrite shows_element; cbn [existsb is_error_alert]).
    rewrite !existsb_app. cbn [existsb].
    unfold ProgressTracker.render at 1.
    rewrite shows_element, !existsb_app.
    cbn [ProgressTracker.p_error]. rewrite Hstored, Herror. cbn [when existsb].
    assert (shows is_error_alert (Alert "error" (error snapshot)) = true) as -> by done.
    by rewrite ?orb_true_r, ?orb_true_l.
  - intros Hdone Herr. unfold App.tick. cbn.
    by destruct (String.eqb_spec (status snapshot) "completed"),
      (String.eqb_spec (status snapshot) "error").
Qed.

End Polling.

Lemma failed_poll_changes_nothing_witness :
  let session := {| session_id := "s-1"; status := "processing";
                    progress := 0; error := VNull |} in
  let st := App.handleSessionCreated session App.initial in
  let api : Api.request → settled (Api.response reply) :=
    λ _, Rejects (VObj [("request", VObj [])]) in
  App.interval st = true ∧ App.poll api st = st.
Proof.
  cbv zeta. split; [reflexivity|].
  apply (failed_poll_changes_nothing (λ _, Rejects (VObj [("request", VObj [])])) _
           {| session_id := "s-1"; status := "processing";
              progress := 0; error := VNull |}
           (VObj [("request", VObj [])])); reflexivity.
Defined.

Lemma snapshot_error_is_shown_when_terminal_witness :
  let session := {| session_id := "s-1"; status := "processing";
                    progress := 0; error := VNull |} in
  let st := App.handleSessionCreated session App.initial in
  let kids := {| App.uploader := FileUploader.initial; App.acceptedFiles := [];
                 App.controls := ConversionControls.initial |} in
  let snapshot := {| session_id := "s-1"; status := "error";
                     progress := 40; error := VStr "Page 3 is unreadable" |} in
  let st' := App.tick (Resolves (Some snapshot)) st in
  App.error st' = VStr "Page 3 is unreadable"
  ∧ shows is_error_alert (App.render "he" kids st') = true.
Proof.
  cbv zeta.
  destruct (snapshot_error_is_shown_when_terminal "he"
              {| App.uploader := FileUploader.initial; App.acceptedFiles := [];
                 App.controls := ConversionControls.initial |}
              {| session_id := "s-1"; status := "error";
                 progress := 40; error := VStr "Page 3 is unreadable" |}
              {| session_id := "s-1"; status := "processing";
                 progress := 0; error := VNull |}
              (App.handleSessionCreated
                 {| session_id := "s-1"; status := "processing";
                    progress := 0; error := VNull |} App.initial)
              eq_refl) as [Hshown _].
  apply Hshown; [right|]; reflexivity.
Defined.

(** ** Progress tracker, beyond the status cases *)

(** X12. Whatever the status, the tracker renders exactly one progress
    bar.  Its colour is never ['default'] (which the chip may have): it is
    one of primary, secondary, success, error and info.  It is
    indeterminate exactly for [processing] and [analysis]. *)
Theorem progress_bar_is_well_formed (language : string) (p : ProgressTracker.props) :
  ∃ variant percent color,
    Query.progress_bars (ProgressTracker.render language p)
    = [LinearProgress variant percent color]
    ∧ color ∈ ["primary"; "secondary"; "success"; "error"; "info"]
    ∧ (variant = "indeterminate"
       ↔ ProgressTracker.p_status p = "processing"
         ∨ ProgressTracker.p_status p = "analysis").
Proof.
  unfold ProgressTracker.render, ProgressTracker.getStatusConfig, ProgressTracker.switch.
  destruct (truthy (ProgressTracker.p_error p));
    destruct (String.eqb_spec (ProgressTracker.p_status p) "pending") as [H1|H1];
    destruct (String.eqb_spec (ProgressTracker.p_status p) "processing") as [H2|H2];
    destruct (String.eqb_spec (ProgressTracker.p_status p) "paused") as [H3|H3];
    destruct (String.eqb_spec (ProgressTracker.p_status p) "completed") as [H4|H4];
    destruct (String.eqb_spec (ProgressTracker.p_status p) "error") as [H5|H5];
    destruct (String.eqb_spec (ProgressTracker.p_status p) "analysis") as [H6|H6];
    try congruence;
    (eexists _, _, _; split; [reflexivity|]; split;
     [rewrite list_elem_of_In; cbn; tauto | cbn; intuition congruence]).
Qed.

(** ** Conversion controls, beyond cancel and format *)

Section ControlRequests.
Variable api : Api.request → settled (Api.response reply).
Variables language sessionId : string.

(** X13. The controls the component offers, by status: the format selector
    and start for [pending]; pause and cancel for [processing]; resume and
    cancel for [paused]; none for any other status.  So start, pause and
    resume are never offered together. *)
Theorem controls_by_status (status : string) (st : ConversionControls.state) :
  handlers (ConversionControls.render language status st)
  = if String.eqb status "pending" then [handleFormatChange; handleStart]
    else if String.eqb status "processing" then [handlePause; handleCancel]
    else if String.eqb status "paused" then [handleResume; handleCancel]
    else [].
Proof.
  rewrite controls_handlers.
  unfold ConversionControls.isPending, ConversionControls.isProcessing,
    ConversionControls.isPaused.
  destruct (String.eqb_spec status "pending") as [H1|H1],
    (String.eqb_spec status "processing") as [H2|H2],
    (String.eqb_spec status "paused") as [H3|H3]; try congruence; reflexivity.
Qed.


End ControlRequests.

Section ControlOutcomes.
Variable api : Api.request → settled (Api.response reply).
Variables language sessionId : string.




(** X17. Every handler of the component, with whatever outcome of its
    request, keeps the parent's [selectedFormat] equal to the component's
    [outputFormat] once they are equal: a format change sets both, and
    no other handler touches either. *)
Theorem controls_keep_formats_equal
    (h : handler) (choice : string) (st : ConversionControls.state) (app : App.state) :
  App.selectedFormat app = ConversionControls.outputFormat st →
  let after := ConversionControls.handle api language sessionId h choice st in
  App.selectedFormat (Wiring.deliver_all after.2 app)
  = ConversionControls.outputFormat after.1.
Proof.
  intros Hequal. cbv zeta.
  assert (∀ outcome,
            App.selectedFormat
              (Wiring.deliver_all (ConversionControls.settle language outcome st).2 app)
            = ConversionControls.outputFormat
                (ConversionControls.settle language outcome st).1) as Hsettle.
  { intros outcome. rewrite settle_keeps_format, <- Hequal.
    unfold ConversionControls.settle.
    destruct outcome as [[response|]|exn]; cbn; try done.
    by destruct (get exn "message"). }
  destruct h; try exact Hequal; try apply Hsettle. reflexivity.
Qed.

End ControlOutcomes.




Lemma controls_keep_formats_equal_witness :
  let api : Api.request → settled (Api.response reply) := λ _, Rejects VNull in
  let after :=
    ConversionControls.handle api "en" "s-1" handleFormatChange "csv"
      ConversionControls.initial in
  App.selectedFormat App.initial = ConversionControls.outputFormat ConversionControls.initial
  ∧ App.selectedFormat (Wiring.deliver_all after.2 App.initial) = "csv"
  ∧ ConversionControls.outputFormat after.1 = "csv".
Proof.
  cbv zeta. split; [reflexivity|].
  pose proof (controls_keep_formats_equal (λ _, Rejects VNull) "en" "s-1"
                handleFormatChange "csv" ConversionControls.initial App.initial eq_refl)
    as Hequal.
  split; [rewrite Hequal|]; reflexivity.
Defined.

(** ** Language changes, beyond the invariant *)

(** X18. Right after a change of language, the document is set from that
    language alone, whatever the page held and whatever happened before:
    [lang] is the new language, and [dir] is ['rtl'] for ['he'] and ['ltr']
    for every other language. *)
Theorem last_language_change_decides
    (sync : bool) (doc : I18n.document) (evs : list I18n.event) (l : string) :
  let w := I18n.run (I18n.boot sync doc) (evs ++ [I18n.ChangeLanguage l]) in
  I18n.language w = Some l
  ∧ I18n.page w
    = {| I18n.dir := if String.eqb l "he" then "rtl" else "ltr"; I18n.lang := l |}.
Proof.
  cbv zeta. unfold I18n.run. rewrite foldl_snoc.
  destruct (run_settled evs (I18n.boot sync doc) (boot_settled sync doc)) as [Hsub _].
  unfold I18n.run in Hsub. cbn. unfold I18n.emit_languageChanged. cbn.
  by rewrite Hsub.
Qed.

(** ** Going back to file selection *)

(** X19. After [handleReturnToFileSelection] the session, the status, the
    progress, the error and polling are those of a fresh page and the
    interval is cleared, so a passing second changes nothing; the page
    shows the uploader in place of the tracker, the controls and the
    download block.  The selected format is not reset. *)
Theorem return_to_file_selection_resets
    (api : Api.request → settled (Api.response reply))
    (language : string) (kids : App.children) (st : App.state) :
  let st' := App.handleReturnToFileSelection st in
  (App.session st', App.status st', App.progress st', App.error st', App.polling st',
   App.interval st')
  = (App.session App.initial, App.status App.initial, App.progress App.initial,
     App.error App.initial, App.polling App.initial, App.interval App.initial)
  ∧ App.poll api st' = st'
  ∧ App.selectedFormat st' = App.selectedFormat st
  ∧ handlers (App.render language kids st')
    = (handleLanguageMenuOpen ::
       (if App.languageMenu st then [changeLanguage "he"; changeLanguage "en"] else [])
       ++ handlers (FileUploader.render language (App.acceptedFiles kids)
                      (App.uploader kids)))%list.
Proof.
  cbv zeta. repeat split. by rewrite app_handlers.
Qed.

(** ** The status chip *)

